(** * Country automation dashboard: the tabular data-access layer

    A shallow embedding of [country_automation_dashboard.py]: the loader
    [load_country_data], the search [search_occupations], the statistics
    extractor [calculate_country_occupation_stats], the aggregator
    [create_country_overview_metrics], the exporter [export_data] and the
    risk labels computed in [main].

    Conventions of the embedding
    - a spreadsheet cell is a number, a missing value (NaN) or a text;
      finite floats are read as the rationals they denote, so [0.5] is
      [1 # 2] and [0.2] is [1 # 5];
    - text is a byte string, lower-casing acts on the ASCII letters;
    - a Python [dict] keyed by country code is a [gmap string _];
    - a call that may raise returns a [result]. *)

From Stdlib Require Import QArith Ascii.
From stdpp Require Import gmap strings list fin_maps pretty.

(** ** Outcomes of Python calls *)

Inductive exn : Set :=
| IndexError   (* positional indexer out of bounds *)
| TypeError    (* an operator applied to a text cell *)
| KeyError     (* a dict has no such key *)
| ReError      (* re.error: the pattern does not compile *)
| ReadError.   (* pd.read_excel on a file it cannot parse *)

Inductive result (A : Type) : Type :=
| Ok (a : A)
| Raise (e : exn).

Arguments Ok {A} a.
Arguments Raise {A} e.

#[global] Instance result_ret : MRet result := λ A a, Ok a.
#[global] Instance result_bind : MBind result :=
  λ A B f m, match m with Ok a => f a | Raise e => Raise e end.

Definition raises {A} (m : result A) : Prop := ∃ e, m = Raise e.

(** ** Cells and tables *)

Inductive cell : Type :=
| Num (q : Q)
| NaN
| Str (s : string).

(** A [DataFrame]: the column labels and the rows, in order. *)
Record DataFrame : Type := {
  columns : list string;
  rows : list (list cell)
}.

(** pandas keeps tables rectangular. *)
Definition well_formed (df : DataFrame) : Prop :=
  Forall (λ r, length r = length (columns df)) (rows df).

(** [len(df)] *)
Definition len_df (df : DataFrame) : nat := length (rows df).

(** [df.empty]: some axis has length 0. *)
Definition empty_df (df : DataFrame) : bool :=
  bool_decide (length (rows df) = 0) || bool_decide (length (columns df) = 0).

(** [df.iloc[:, j]]: the column at position [j]; out of bounds raises. *)
Definition iloc_col (df : DataFrame) (j : nat) : result (list cell) :=
  if decide (j < length (columns df))
  then Ok ((λ r, default NaN (r !! j)) <$> rows df)
  else Raise IndexError.

(** [df.iloc[i, k:]]: row [i] from column [k] on, as an array of cells. *)
Definition iloc_row_from (df : DataFrame) (i k : nat) : result (list cell) :=
  match rows df !! i with
  | Some r => Ok (drop k r)
  | None => Raise IndexError
  end.

(** Selection by a boolean mask, [xs[mask]]. *)
Fixpoint mask_select {A} (xs : list A) (mask : list bool) : list A :=
  match xs, mask with
  | x :: xs', b :: mask' =>
      if b then x :: mask_select xs' mask' else mask_select xs' mask'
  | _, _ => []
  end.

(** [df[mask]] *)
Definition boolean_index (df : DataFrame) (mask : list bool) : DataFrame :=
  {| columns := columns df; rows := mask_select (rows df) mask |}.

(** [series == s] for a text [s]: only a text cell can be equal to it. *)
Definition cell_eq_str (s : string) (c : cell) : bool :=
  match c with
  | Str t => bool_decide (t = s)
  | _ => false
  end.

Definition series_eq_str (col : list cell) (s : string) : list bool :=
  cell_eq_str s <$> col.

(** [a[i]] on an array, with Python's negative indices. *)
Definition getitem {A} (a : list A) (i : Z) : result A :=
  let n := Z.of_nat (length a) in
  let j := if (i <? 0)%Z then (n + i)%Z else i in
  if ((0 <=? j)%Z && (j <? n)%Z)
  then match a !! Z.to_nat j with
       | Some x => Ok x
       | None => Raise IndexError
       end
  else Raise IndexError.

(** ** Statistics extractor *)

Record occupation_stats : Type := {
  probabilities : list cell;
  years : list nat;
  current_2024 : cell;
  outlook_2030 : cell;
  midterm_2050 : cell;
  final_2107 : cell
}.

(** [list(range(2017, 2108))] *)
Definition all_years : list nat := seq 2017 91.

(** The four guarded reads of [calculate_country_occupation_stats]. *)
Definition point_values (probs : list cell) : result occupation_stats :=
  current_prob ← (if decide (7 < length probs) then getitem probs 7 else Ok (Num 0));
  prob_2030 ← (if decide (13 < length probs) then getitem probs 13 else Ok (Num 0));
  prob_2050 ← (if decide (33 < length probs) then getitem probs 33 else Ok (Num 0));
  final_prob ← (if decide (0 < length probs) then getitem probs (-1) else Ok (Num 0));
  Ok {| probabilities := probs;
        years := take (length probs) all_years;
        current_2024 := current_prob;
        outlook_2030 := prob_2030;
        midterm_2050 := prob_2050;
        final_2107 := final_prob |}.

(** The body of the loop for one country: [None] when no row has the title. *)
Definition country_occupation_stats (occupation_title : string) (df : DataFrame)
  : result (option occupation_stats) :=
  titles ← iloc_col df 1;
  let occ_row := boolean_index df (series_eq_str titles occupation_title) in
  if negb (empty_df occ_row) then
    probs ← iloc_row_from occ_row 0 2;
    st ← point_values probs;
    Ok (Some st)
  else Ok None.

(** A loop over the items of a dict that fills a fresh dict. *)
Definition dict_for {A B} (body : string → A → result (option B))
    (d : gmap string A) : result (gmap string B) :=
  map_fold (λ k a acc,
      out ← acc;
      ob ← body k a;
      Ok (match ob with Some b => <[k:=b]> out | None => out end))
    (Ok ∅) d.

Definition calculate_country_occupation_stats (occupation_title : string)
    (country_data : gmap string DataFrame) : result (gmap string occupation_stats) :=
  dict_for (λ _ df, country_occupation_stats occupation_title df) country_data.

(** ** Aggregator *)

Record overview_stats : Type := {
  total_occupations : nat;
  avg_automation_2024 : cell;
  high_risk_occupations_2050 : nat;
  high_risk_percentage : Q
}.

(** The numbers of a column with the missing values dropped; a text cell
    cannot be summed or compared with a number. *)
Fixpoint dropna (col : list cell) : result (list Q) :=
  match col with
  | [] => Ok []
  | Num q :: col' => qs ← dropna col'; Ok (q :: qs)
  | NaN :: col' => dropna col'
  | Str _ :: _ => Raise TypeError
  end.

Definition Qsum (qs : list Q) : Q := foldr Qplus 0%Q qs.

Definition Qnat (n : nat) : Q := inject_Z (Z.of_nat n).

(** [series.mean()]: missing values are skipped, and the mean of no value
    at all is NaN. *)
Definition series_mean (col : list cell) : result cell :=
  qs ← dropna col;
  Ok (if decide (0 < length qs) then Num (Qsum qs / Qnat (length qs)) else NaN).

(** [x > t] for a cell [x] and a float [t]: false on NaN. *)
Definition cell_gt (x : cell) (t : Q) : result bool :=
  match x with
  | Num q => Ok (negb (Qle_bool q t))
  | NaN => Ok false
  | Str _ => Raise TypeError
  end.

(** [series > t] *)
Fixpoint series_gt (col : list cell) (t : Q) : result (list bool) :=
  match col with
  | [] => Ok []
  | x :: col' => b ← cell_gt x t; bs ← series_gt col' t; Ok (b :: bs)
  end.

(** [mask.sum()]: the number of [True]. *)
Definition bool_sum (mask : list bool) : nat :=
  foldr (λ (b : bool) n, if b then S n else n) 0 mask.

(** The body of the loop of [create_country_overview_metrics]. *)
Definition country_overview (df : DataFrame) : result overview_stats :=
  let total := len_df df in
  avg_2024 ← (if decide (9 < length (columns df))
              then col ← iloc_col df 9; series_mean col
              else Ok (Num 0));
  high_risk_2050 ← (if decide (35 < length (columns df))
                    then col ← iloc_col df 35;
                         mask ← series_gt col (1 # 2);
                         Ok (bool_sum mask)
                    else Ok 0);
  Ok {| total_occupations := total;
        avg_automation_2024 := avg_2024;
        high_risk_occupations_2050 := high_risk_2050;
        high_risk_percentage :=
          if decide (0 < total)
          then (Qnat high_risk_2050 / Qnat total * 100)%Q
          else 0%Q |}.

Definition create_country_overview_metrics (country_data : gmap string DataFrame)
  : result (gmap string overview_stats) :=
  dict_for (λ _ df, o ← country_overview df; Ok (Some o)) country_data.

(** ** Risk labels

    The three places of [main] that turn [current_2024] into a label. *)

Definition risk_level_compare (current : cell) : result string :=
  hi ← cell_gt current (1 # 2);
  if hi : bool then Ok "🔴 High"
  else med ← cell_gt current (1 # 5);
       Ok (if med : bool then "🟡 Medium" else "🟢 Low").

Definition risk_level_table (current : cell) : result string :=
  hi ← cell_gt current (1 # 2);
  if hi : bool then Ok "🔴 High"
  else med ← cell_gt current (1 # 5);
       Ok (if med : bool then "🟡 Medium" else "🟢 Low").

Definition risk_level_browse (current : cell) : result string :=
  hi ← cell_gt current (1 # 2);
  if hi : bool then Ok "🔴 High Risk"
  else med ← cell_gt current (1 # 5);
       Ok (if med : bool then "🟡 Medium Risk" else "🟢 Low Risk").

(** The tiers of the specification and their labels. *)
Inductive risk_tier : Set := High | Medium | Low.

Definition tier_label (t : risk_tier) : string :=
  match t with
  | High => "🔴 High"
  | Medium => "🟡 Medium"
  | Low => "🟢 Low"
  end.

Definition tier_label_browse (t : risk_tier) : string :=
  tier_label t +:+ " Risk".

(** ** Text *)

(** [c.lower()] on an ASCII letter. *)
Definition lower_ascii (a : ascii) : ascii :=
  let n := N_of_ascii a in
  if ((65 <=? n)%N && (n <=? 90)%N) then ascii_of_N (n + 32) else a.

(** [s.lower()] *)
Fixpoint lower (s : string) : string :=
  match s with
  | EmptyString => EmptyString
  | String a s' => String (lower_ascii a) (lower s')
  end.

(** [p in s]: [p] is a contiguous part of [s]. *)
Fixpoint contains (p s : string) : bool :=
  String.prefix p s ||
  match s with
  | EmptyString => false
  | String _ s' => contains p s'
  end.

(** Equality of texts up to the case of ASCII letters. *)
Fixpoint eq_ignore_case (s t : string) : bool :=
  match s, t with
  | EmptyString, EmptyString => true
  | String a s', String b t' =>
      bool_decide (lower_ascii a = lower_ascii b) && eq_ignore_case s' t'
  | _, _ => false
  end.

(** ** Occupation index *)

Section OccupationIndex.

(** [str(x)] of a number, as pandas prints it. *)
Variable float_repr : Q → string.

(** [re.compile(pat)], as the test [λ s, pat.search(s) is not None];
    [re.error] when the pattern does not compile. *)
Variable re_compile : string → result (string → bool).

(** [series.astype(str)] on one cell (pandas 2: a missing value becomes
    the text [nan]). *)
Definition astype_str (c : cell) : string :=
  match c with
  | Str s => s
  | NaN => "nan"
  | Num q => float_repr q
  end.

(** [series.str.contains(pat, na=False)]: [pat] is a regular expression. *)
Definition str_contains (col : list string) (pat : string) : result (list bool) :=
  test ← re_compile pat;
  Ok (test <$> col).

(** [a | b] on boolean series. *)
Definition series_or (a b : list bool) : list bool := zip_with orb a b.

Definition search_occupations (data : DataFrame) (search_term : string)
  : result DataFrame :=
  if bool_decide (search_term = "") then Ok data
  else
    let search_term := lower search_term in
    codes ← iloc_col data 0;
    soc_matches ← str_contains (lower <$> (astype_str <$> codes)) search_term;
    titles ← iloc_col data 1;
    title_matches ← str_contains (lower <$> (astype_str <$> titles)) search_term;
    Ok (boolean_index data (series_or soc_matches title_matches)).

End OccupationIndex.

(** *** Regular expressions made of ordinary characters and dots

    The characters with a meaning of their own in a pattern. *)
Definition re_special (a : ascii) : bool :=
  bool_decide (a ∈ String.list_ascii_of_string ".^$*+?{}[]\|()").

Inductive atom : Set :=
| AnyChar            (* [.]: any character but a newline *)
| Lit (a : ascii).

Definition atom_matches (t : atom) (a : ascii) : bool :=
  match t with
  | AnyChar => negb (bool_decide (a = "010"%char))
  | Lit b => bool_decide (a = b)
  end.

Fixpoint atoms_of (pat : string) : list atom :=
  match pat with
  | EmptyString => []
  | String a pat' => (if bool_decide (a = "."%char) then AnyChar else Lit a) :: atoms_of pat'
  end.

(** The atoms match a prefix of [s]. *)
Fixpoint match_here (ts : list atom) (s : string) : bool :=
  match ts, s with
  | [], _ => true
  | t :: ts', String a s' => atom_matches t a && match_here ts' s'
  | _ :: _, EmptyString => false
  end.

(** [pat.search(s) is not None] *)
Fixpoint search_atoms (ts : list atom) (s : string) : bool :=
  match_here ts s ||
  match s with
  | EmptyString => false
  | String _ s' => search_atoms ts s'
  end.

(** A pattern of ordinary characters and dots. *)
Definition plain_pattern (pat : string) : bool :=
  forallb (λ a, negb (re_special a) || bool_decide (a = "."%char))
          (String.list_ascii_of_string pat).

(** A pattern of ordinary characters only. *)
Definition literal_pattern (pat : string) : bool :=
  forallb (λ a, negb (re_special a)) (String.list_ascii_of_string pat).

(** Python's [re] on the plain patterns. The other patterns are outside
    this instance: it rejects them all, which is Python's answer for the
    malformed ones only, such as [(]; the examples and witnesses below use
    plain patterns and [(]. *)
Definition re_compile_plain (pat : string) : result (string → bool) :=
  if plain_pattern pat then Ok (search_atoms (atoms_of pat)) else Raise ReError.

(** What is known of the library's [re.compile] on literal patterns: the
    test it returns is containment. *)
Definition literal_search (re_compile : string → result (string → bool)) : Prop :=
  ∀ pat, literal_pattern pat = true →
    ∃ test, re_compile pat = Ok test ∧ ∀ s, test s = contains pat s.

(** ** Dataset store *)

Record country_info : Type := {
  name : string;
  flag : string;
  file : string;
  description : string;
  color : string
}.

Definition COUNTRIES : list (string * country_info) := [
  ("USA", {| name := "United States"; flag := "🇺🇸";
             file := "USA_corrected.xlsx";
             description := "Advanced economy with high tech adoption";
             color := "#1f77b4" |});
  ("Germany", {| name := "Germany"; flag := "🇩🇪";
                 file := "Germany_corrected.xlsx";
                 description := "Industrial leader with strong manufacturing";
                 color := "#ff7f0e" |});
  ("China", {| name := "China"; flag := "🇨🇳";
               file := "China_corrected.xlsx";
               description := "Rapidly developing with massive AI investments";
               color := "#2ca02c" |});
  ("Algeria", {| name := "Algeria"; flag := "🇩🇿";
                 file := "Algeria_corrected.xlsx";
                 description := "North African economy with emerging tech sector";
                 color := "#d62728" |});
  ("MENA", {| name := "MENA Region"; flag := "🏺";
              file := "Mena_corrected.xlsx";
              description := "Middle East & North Africa regional perspective";
              color := "#9467bd" |});
  ("Mali", {| name := "Mali"; flag := "🇲🇱";
              file := "Mali_corrected.xlsx";
              description := "West African developing economy";
              color := "#8c564b" |})
].

Section DatasetStore.

(** [os.path.exists] *)
Variable path_exists : string → bool.

(** [pd.read_excel]: the parsed table, or the exception of an unreadable
    file. *)
Variable read_excel : string → result DataFrame.

(** One turn of the loop of [load_country_data]: the [try] keeps every
    exception inside the turn ([st.error] only shows a message). *)
Definition load_one (acc : gmap string DataFrame * list string)
    (item : string * country_info) : gmap string DataFrame * list string :=
  let '(country_data, missing_files) := acc in
  let '(country_code, info) := item in
  if path_exists (file info) then
    match read_excel (file info) with
    | Ok df => (<[country_code := df]> country_data, missing_files)
    | Raise _ => (country_data, missing_files ++ [file info])
    end
  else (country_data, missing_files ++ [file info]).

Definition load_countries (countries : list (string * country_info))
  : gmap string DataFrame * list string :=
  foldl load_one (∅, []) countries.

Definition load_country_data : gmap string DataFrame * list string :=
  load_countries COUNTRIES.

End DatasetStore.

(** ** Export adapter *)

Section ExportAdapter.

(** [data.to_csv(index=...)], the text encoded as UTF-8. *)
Variable to_csv : bool → DataFrame → string.

(** The bytes of the workbook that [data.to_excel(writer, sheet_name=...,
    index=...)] writes through openpyxl, or the writer's exception. *)
Variable to_excel : string → bool → DataFrame → result string.

Definition export_data (data : DataFrame) (filename file_format : string)
  : result (string * string * string) :=
  if bool_decide (lower file_format = "csv") then
    Ok (to_csv false data, filename +:+ ".csv", "text/csv")
  else
    bytes ← to_excel "Data" false data;
    Ok (bytes, filename +:+ ".xlsx",
        "application/vnd.openxmlformats-officedocument.spreadsheetml.sheet").

End ExportAdapter.

(** ** The series drawn by [create_multi_occupation_plot] *)

Record trace : Type := {
  trace_name : string;
  trace_x : list nat;
  trace_y : list Q
}.

Section Plot.

Variable float_repr : Q → string.

(** The number a text denotes for [pd.to_numeric], if it denotes one. *)
Variable parse_number : string → option Q.

(** [pd.to_numeric(x, errors='coerce')] on one cell of an array of floats:
    [None] is NaN. *)
Definition to_numeric_coerce (c : cell) : option Q :=
  match c with
  | Num q => Some q
  | NaN => None
  | Str s => parse_number s
  end.

(** [np.nan_to_num(x, nan=0)] on one float. *)
Definition nan_to_num (x : option Q) : Q := default 0%Q x.

(** The body of the loop for one selected occupation. *)
Definition occupation_trace (df : DataFrame) (occ_title : string)
  : result (option trace) :=
  titles ← iloc_col df 1;
  let mask := (λ c, bool_decide (astype_str float_repr c = occ_title)) <$> titles in
  let occ_row := boolean_index df mask in
  if negb (empty_df occ_row) then
    probs ← iloc_row_from occ_row 0 2;
    let probs := nan_to_num <$> (to_numeric_coerce <$> probs) in
    Ok (Some {| trace_name :=
                  if decide (40 < String.length occ_title)
                  then String.substring 0 40 occ_title +:+ "..."
                  else occ_title;
                trace_x := seq 2017 (length probs);
                trace_y := probs |})
  else Ok None.

(** [COUNTRIES[country_code]] *)
Definition countries_getitem (country_code : string) : result country_info :=
  match list_find (λ item, item.1 = country_code) COUNTRIES with
  | Some (_, (_, info)) => Ok info
  | None => Raise KeyError
  end.

(** The figure as its traces and the text of its title; [None] for a
    country without a table. *)
Definition create_multi_occupation_plot (selected_occupations : list string)
    (country_code : string) (country_data : gmap string DataFrame)
  : result (option (list trace * string)) :=
  match country_data !! country_code with
  | None => Ok None
  | Some df =>
      traces ← mapM (occupation_trace df) selected_occupations;
      info ← countries_getitem country_code;
      Ok (Some (omap id traces,
                "Multi-Occupation Analysis: " +:+ flag info +:+ " " +:+ name info))
  end.

End Plot.

(** ** Sample tables *)

(** Two identifier columns and [n] year columns. *)
Definition sample_columns (n : nat) : list string :=
  "SOC Code" :: "Occupation" :: (pretty <$> seq 2017 n).

(** A row whose probability at offset [i] is [(i + k) / 100]. *)
Definition sample_row (code title : string) (k n : nat) : list cell :=
  Str code :: Str title :: ((λ i, Num (Z.of_nat (i + k) # 100)) <$> seq 0 n).

Definition sample_table (n : nat) : DataFrame :=
  {| columns := sample_columns n;
     rows := [ sample_row "11-1011" "Chief Executives" 0 n;
               sample_row "15-1252" "Software Developer" 3 n ] |}.

(** The row of an occupation: its title is in column 1. *)
Definition has_title (title : string) (r : list cell) : Prop :=
  r !! 1 = Some (Str title).

(** A table with one occupation above 0.5 in 2050. *)
Definition overview_table : DataFrame :=
  {| columns := sample_columns 91;
     rows := [ sample_row "11-1011" "Chief Executives" 0 91;
               sample_row "15-1252" "Software Developer" 3 91;
               sample_row "41-9041" "Telemarketers" 30 91 ] |}.

(** The sample table with the text [n/a] in the 2024 cell and a missing
    value in the last cell of the second row. *)
Definition malformed_table : DataFrame :=
  {| columns := sample_columns 91;
     rows := [ sample_row "11-1011" "Chief Executives" 0 91;
               <[92 := NaN]> (<[9 := Str "n/a"]>
                 (sample_row "15-1252" "Software Developer" 3 91)) ] |}.

(** The overview table with the text [unknown] in the 2050 cell (column
    35) of its last row, and numbers everywhere else. *)
Definition text_in_2050_table : DataFrame :=
  {| columns := sample_columns 91;
     rows := [ sample_row "11-1011" "Chief Executives" 0 91;
               sample_row "15-1252" "Software Developer" 3 91;
               <[35 := Str "unknown"]>
                 (sample_row "41-9041" "Telemarketers" 30 91) ] |}.

(** The table read from a sheet that has the header row only. *)
Definition header_only_table : DataFrame :=
  {| columns := sample_columns 91; rows := [] |}.

(** ** Words of the specification *)

(** The cells of the column at offset [j], one per row. *)
Definition column (df : DataFrame) (j : nat) : list cell :=
  (λ r, default NaN (r !! j)) <$> rows df.

(** No cell of the column at offset [j] is a text. *)
Definition no_text (df : DataFrame) (j : nat) : Prop :=
  ∀ r s, r ∈ rows df → r !! j ≠ Some (Str s).

(** The numbers of a column. *)
Definition numbers (col : list cell) : list Q :=
  omap (λ c, match c with Num q => Some q | _ => None end) col.

(** [m] is the mean of a column: of its numbers, and NaN when it has none. *)
Definition is_mean (col : list cell) (m : cell) : Prop :=
  match numbers col with
  | [] => m = NaN
  | qs => ∃ q, m = Num q ∧ (q * Qnat (length qs) == Qsum qs)%Q
  end.

(** The value of row [r] at offset [j] exceeds [t]. *)
Definition exceeds (t : Q) (j : nat) (r : list cell) : Prop :=
  ∃ q, r !! j = Some (Num q) ∧ (t < q)%Q.

#[global] Instance Qlt_decision (x y : Q) : Decision (x < y)%Q.
Proof.
  destruct (Qlt_le_dec x y) as [Hlt|Hle]; [by left|right].
  by apply Qle_not_lt.
Defined.

#[global] Instance exceeds_dec (t : Q) (j : nat) (r : list cell) :
  Decision (exceeds t j r).
Proof.
  unfold exceeds. destruct (r !! j) as [[q| |s]|].
  - destruct (Qlt_le_dec t q) as [Hlt|Hle].
    + left. by exists q.
    + right. intros (q' & [= <-] & Hlt). by apply Qle_not_lt in Hle.
  - right. by intros (q' & [=] & _).
  - right. by intros (q' & [=] & _).
  - right. by intros (q' & [=] & _).
Defined.

(** The term occurs in the cell at offset [j] of the row, case apart. *)
Definition term_in (float_repr : Q → string) (term : string) (j : nat)
    (r : list cell) : bool :=
  contains (lower term) (lower (astype_str float_repr (default NaN (r !! j)))).

(** The rows in which the term occurs in the code or in the title. *)
Definition matching_rows (float_repr : Q → string) (data : DataFrame)
    (term : string) : list (list cell) :=
  List.filter (λ r, term_in float_repr term 0 r || term_in float_repr term 1 r)
              (rows data).

(** A country loads when its file exists and parses. *)
Definition load_fails (path_exists : string → bool)
    (read_excel : string → result DataFrame) (info : country_info) : Prop :=
  path_exists (file info) = false ∨ raises (read_excel (file info)).

(** A directory with the file of the USA, a corrupt file for Germany and
    no other file. *)
Definition sample_exists (f : string) : bool :=
  bool_decide (f ∈ ["USA_corrected.xlsx"; "Germany_corrected.xlsx"]).

Definition sample_read_excel (f : string) : result DataFrame :=
  if bool_decide (f = "USA_corrected.xlsx") then Ok (sample_table 91)
  else Raise ReadError.

(** ** Uploaded files *)

(** An uploaded file: its name and its bytes. *)
Record upload : Type := {
  upload_name : string;
  upload_bytes : string
}.

(** The inner loop of [load_uploaded_data]: the code of the first country
    whose file has the name. *)
Definition match_country (countries : list (string * country_info))
    (filename : string) : option string :=
  match list_find (λ item, file item.2 = filename) countries with
  | Some (_, (code, _)) => Some code
  | None => None
  end.

Section Uploads.

(** [pd.read_excel] on an uploaded file. *)
Variable read_excel_upload : upload → result DataFrame.

(** One turn of the loop of [load_uploaded_data]; [if country_code:] is
    false for no code and for the empty code. *)
Definition upload_one (countries : list (string * country_info))
    (country_data : gmap string DataFrame) (uploaded_file : upload)
  : gmap string DataFrame :=
  match match_country countries (upload_name uploaded_file) with
  | Some country_code =>
      if bool_decide (country_code ≠ "") then
        match read_excel_upload uploaded_file with
        | Ok df => <[country_code := df]> country_data
        | Raise _ => country_data
        end
      else country_data
  | None => country_data
  end.

Definition load_uploads (countries : list (string * country_info))
    (uploaded_files : list upload) : gmap string DataFrame :=
  foldl (upload_one countries) ∅ uploaded_files.

Definition load_uploaded_data (uploaded_files : list upload)
  : gmap string DataFrame :=
  load_uploads COUNTRIES uploaded_files.

(** The head of [main]: the tables the dashboard goes on with, [None]
    when it stops ([st.stop()]). The uploader is shown only when a file is
    missing. *)
Definition main_country_data (path_exists : string → bool)
    (read_excel : string → result DataFrame) (uploaded_files : list upload)
  : option (gmap string DataFrame) :=
  let '(country_data, missing_files) := load_country_data path_exists read_excel in
  if bool_decide (missing_files ≠ []) then
    if bool_decide (uploaded_files ≠ []) then
      let uploaded_data := load_uploaded_data uploaded_files in
      (* country_data.update(uploaded_data) *)
      let country_data := uploaded_data ∪ country_data in
      if decide (size country_data ≠ 0) then Some country_data else None
    else None
  else Some country_data.

End Uploads.

(** ** The country check boxes of the sidebar *)

(** [l.remove(x)]: the first occurrence goes. *)
Fixpoint remove_first (x : string) (l : list string) : list string :=
  match l with
  | [] => []
  | y :: l' => if decide (x = y) then l' else y :: remove_first x l'
  end.

(** One check box: [checked] is what the box returns. *)
Definition select_one (checked : string → bool) (selected : list string)
    (country_code : string) : result (list string) :=
  _ ← countries_getitem country_code;
  if checked country_code then
    Ok (if bool_decide (country_code ∈ selected) then selected
        else selected ++ [country_code])
  else
    Ok (if bool_decide (country_code ∈ selected)
        then remove_first country_code selected
        else selected).

(** The loop over [available_countries], on [selected_countries]. *)
Fixpoint select_countries (checked : string → bool) (available : list string)
    (selected : list string) : result (list string) :=
  match available with
  | [] => Ok selected
  | country_code :: rest =>
      selected' ← select_one checked selected country_code;
      select_countries checked rest selected'
  end.

(** ** The figure of [create_country_comparison_plot] *)

Record country_trace : Type := {
  country_trace_name : string;
  country_trace_x : list nat;
  country_trace_y : list cell
}.

(** The body of the loop for one selected country. *)
Definition comparison_trace (stats : gmap string occupation_stats)
    (country_code : string) : result (option country_trace) :=
  match stats !! country_code with
  | Some country_stats =>
      info ← countries_getitem country_code;
      Ok (Some {| country_trace_name := flag info +:+ " " +:+ name info;
                  country_trace_x := years country_stats;
                  country_trace_y := probabilities country_stats |})
  | None => Ok None
  end.

(** The figure as its traces and the text of its title. *)
Definition create_country_comparison_plot (occupation_title : string)
    (country_data : gmap string DataFrame) (selected_countries : list string)
  : result (list country_trace * string) :=
  stats ← calculate_country_occupation_stats occupation_title country_data;
  traces ← mapM (comparison_trace stats) selected_countries;
  Ok (omap id traces,
      "Cross-Country Automation Probability: " +:+ occupation_title).

(** ** The browse tab *)

(** The quick statistics of one row of the browse loop: code, title, the
    2024 and 2050 values and the risk label (the card then prints them). *)
Definition browse_quick_stats (row : list cell)
  : result (cell * cell * cell * cell * string) :=
  occ_title ← getitem row 1;
  soc_code ← getitem row 0;
  let probs := drop 2 row in
  current_2024 ← (if decide (7 < length probs) then getitem probs 7 else Ok (Num 0));
  prob_2050 ← (if decide (33 < length probs) then getitem probs 33 else Ok (Num 0));
  risk_level ← risk_level_browse current_2024;
  Ok (soc_code, occ_title, current_2024, prob_2050, risk_level).

(** ** The occupation filter of the multi-occupation tab *)

(** [[occ for occ in available if search.lower() in occ.lower()]]; [None]
    when [occ.lower()] raises AttributeError on a cell that is no text. *)
Fixpoint filter_titles (search : string) (available : list cell)
  : option (list cell) :=
  match available with
  | [] => Some []
  | Str s :: rest =>
      kept ← filter_titles search rest;
      Some (if contains (lower search) (lower s) then Str s :: kept else kept)
  | _ :: _ => None
  end.

(** [filtered_multi]: with no search term the titles are taken as they
    are. *)
Definition filtered_multi (search_multi : string) (available : list cell)
  : option (list cell) :=
  if bool_decide (search_multi = "") then Some available
  else filter_titles search_multi available.

(** ** More words of the specification *)

(** The table holds a row with the title. *)
Definition has_occupation (title : string) (df : DataFrame) : Prop :=
  ∃ r, r ∈ rows df ∧ has_title title r.

(** A cell that holds a text. *)
Definition is_text (c : cell) : Prop := ∃ s, c = Str s.

(** The order of the tiers. *)
Definition tier_rank (t : risk_tier) : nat :=
  match t with Low => 0 | Medium => 1 | High => 2 end.

(** Two uploads: the file of Mali and a file that no country has. *)
Definition sample_uploads : list upload :=
  [ {| upload_name := "Mali_corrected.xlsx"; upload_bytes := "mali" |};
    {| upload_name := "notes.xlsx"; upload_bytes := "notes" |} ].

(** Every upload parses to the sample table of three years. *)
Definition sample_read_upload (u : upload) : result DataFrame :=
  Ok (sample_table 3).

(** * Properties *)

(** Evaluate the closed right-hand side of an equation in a hypothesis. *)
Ltac eval_rhs H :=
  match type of H with
  | _ = ?rhs => let v := eval vm_compute in rhs in change rhs with v in H
  end.

(** ** The result monad and the dict loop *)

Lemma bind_Ok {A B} (f : A → result B) (a : A) : (Ok a ≫= f) = f a.
Proof. reflexivity. Qed.

Lemma bind_Raise {A B} (f : A → result B) (e : exn) : (Raise e ≫= f) = Raise e.
Proof. reflexivity. Qed.

(** When the body returns on every item, the loop returns the dict of the
    bodies' values. *)
Lemma dict_for_Ok {A B} (body : string → A → result (option B)) (d : gmap string A) :
  (∀ k a, d !! k = Some a → ∃ ob, body k a = Ok ob) →
  ∃ out, dict_for body d = Ok out ∧
    (∀ k, d !! k = None → out !! k = None) ∧
    ∀ k a, d !! k = Some a → body k a = Ok (out !! k).
Proof.
  unfold dict_for.
  apply (map_fold_weak_ind (λ r m,
    (∀ k a, m !! k = Some a → ∃ ob, body k a = Ok ob) →
    ∃ out, r = Ok out ∧ (∀ k, m !! k = None → out !! k = None) ∧
      ∀ k a, m !! k = Some a → body k a = Ok (out !! k))).
  - intros _. exists ∅. split; [done|]. split; [intros; apply lookup_empty|].
    intros k a Hk. by rewrite lookup_empty in Hk.
  - intros i x m r Hi IH Hall.
    destruct IH as (out & -> & Hnone & Hsome).
    { intros k a Hk. apply (Hall k a).
      rewrite lookup_insert_ne; [done|]. intros ->. congruence. }
    destruct (Hall i x) as [ob Hob]; [apply lookup_insert_eq|].
    rewrite bind_Ok, Hob, bind_Ok. eexists. split; [done|]. split.
    + intros k Hk. apply lookup_insert_None in Hk as [Hk Hne].
      destruct ob; [rewrite lookup_insert_ne by done|]; by apply Hnone.
    + intros k a Hk. apply lookup_insert_Some in Hk as [[<- <-]|[Hne Hk]].
      * rewrite Hob. f_equal.
        destruct ob; [by rewrite lookup_insert_eq|]. symmetry. by apply Hnone.
      * rewrite (Hsome k a Hk). f_equal.
        destruct ob; [by rewrite lookup_insert_ne|done].
Qed.

(** One raising item makes the loop raise. *)
Lemma dict_for_Raise {A B} (body : string → A → result (option B)) (d : gmap string A) :
  (∃ k a, d !! k = Some a ∧ raises (body k a)) → raises (dict_for body d).
Proof.
  unfold dict_for.
  apply (map_fold_weak_ind (λ r m,
    (∃ k a, m !! k = Some a ∧ raises (body k a)) → raises r)).
  - intros (k & a & Hk & _). by rewrite lookup_empty in Hk.
  - intros i x m r Hi IH (k & a & Hk & Hr).
    apply lookup_insert_Some in Hk as [[<- <-]|[Hne Hk]].
    + destruct r as [out|e]; [|by exists e].
      destruct Hr as [e ->]. by exists e.
    + destruct IH as [e ->]; [by exists k, a|]. by exists e.
Qed.

(** ** Tables *)

(** On a rectangular table a column within bounds holds a cell of every
    row. *)
Lemma iloc_col_well_formed (df : DataFrame) (j : nat) :
  well_formed df → j < length (columns df) →
  ∃ col, iloc_col df j = Ok col ∧ Forall2 (λ r c, r !! j = Some c) (rows df) col.
Proof.
  intros Hwf Hj. unfold iloc_col. rewrite decide_True by done.
  eexists. split; [reflexivity|].
  unfold well_formed in Hwf. induction Hwf as [|r rs Hr Hrs IH]; [constructor|].
  rewrite fmap_cons. constructor; [|exact IH].
  destruct (lookup_lt_is_Some_2 r j) as [c ->]; [lia|done].
Qed.

Example sample_tables_well_formed :
  well_formed (sample_table 91) ∧ well_formed overview_table ∧
  well_formed malformed_table ∧ well_formed header_only_table.
Proof. repeat split; repeat constructor. Qed.

(** ** Statistics extractor *)

Lemma getitem_lookup {A} (a : list A) (i : nat) (x : A) :
  a !! i = Some x → getitem a (Z.of_nat i) = Ok x.
Proof.
  intros Hi. pose proof (lookup_lt_Some _ _ _ Hi) as Hlt.
  unfold getitem.
  destruct (Z.ltb_spec (Z.of_nat i) 0) as [?|_]; [lia|].
  destruct (Z.leb_spec 0 (Z.of_nat i)) as [_|?]; [|lia].
  destruct (Z.ltb_spec (Z.of_nat i) (Z.of_nat (length a))) as [_|?]; [|lia].
  simpl. by rewrite Nat2Z.id, Hi.
Qed.

Lemma getitem_last {A} (a : list A) (x : A) :
  a !! (length a - 1) = Some x → getitem a (-1) = Ok x.
Proof.
  intros Hi. pose proof (lookup_lt_Some _ _ _ Hi) as Hlt.
  unfold getitem. change (-1 <? 0)%Z with true. cbv iota.
  destruct (Z.leb_spec 0 (Z.of_nat (length a) + -1)) as [_|?]; [|lia].
  destruct (Z.ltb_spec (Z.of_nat (length a) + -1) (Z.of_nat (length a))) as [_|?]; [|lia].
  simpl. replace (Z.to_nat (Z.of_nat (length a) + -1)) with (length a - 1) by lia.
  by rewrite Hi.
Qed.

(** A guarded read returns the cell when the guard holds and 0 otherwise. *)
Lemma guarded_read (probs : list cell) (i : nat) :
  ∃ v, (if decide (i < length probs) then getitem probs (Z.of_nat i) else Ok (Num 0)) = Ok v ∧
       (i < length probs → probs !! i = Some v) ∧
       (length probs ≤ i → v = Num 0).
Proof.
  destruct (decide (i < length probs)) as [Hlt|Hge].
  - destruct (lookup_lt_is_Some_2 probs i Hlt) as [v Hv].
    exists v. split; [by apply getitem_lookup|]. split; [done|lia].
  - exists (Num 0). split; [done|]. split; [lia|done].
Qed.

Lemma guarded_last (probs : list cell) :
  ∃ v, (if decide (0 < length probs) then getitem probs (-1) else Ok (Num 0)) = Ok v ∧
       (0 < length probs → probs !! (length probs - 1) = Some v) ∧
       (length probs = 0 → v = Num 0).
Proof.
  destruct (decide (0 < length probs)) as [Hlt|Hge].
  - destruct (lookup_lt_is_Some_2 probs (length probs - 1)) as [v Hv]; [lia|].
    exists v. split; [by apply getitem_last|]. split; [done|lia].
  - exists (Num 0). split; [done|]. split; [lia|done].
Qed.

(** The four reads never raise. *)
Lemma point_values_Ok (probs : list cell) :
  ∃ st, point_values probs = Ok st ∧
    probabilities st = probs ∧
    years st = take (length probs) all_years ∧
    (7 < length probs → probs !! 7 = Some (current_2024 st)) ∧
    (length probs ≤ 7 → current_2024 st = Num 0) ∧
    (13 < length probs → probs !! 13 = Some (outlook_2030 st)) ∧
    (length probs ≤ 13 → outlook_2030 st = Num 0) ∧
    (33 < length probs → probs !! 33 = Some (midterm_2050 st)) ∧
    (length probs ≤ 33 → midterm_2050 st = Num 0) ∧
    (0 < length probs → probs !! (length probs - 1) = Some (final_2107 st)) ∧
    (length probs = 0 → final_2107 st = Num 0).
Proof.
  unfold point_values.
  destruct (guarded_read probs 7) as (v7 & H7 & ? & ?).
  destruct (guarded_read probs 13) as (v13 & H13 & ? & ?).
  destruct (guarded_read probs 33) as (v33 & H33 & ? & ?).
  destruct (guarded_last probs) as (vl & Hl & ? & ?).
  change (Z.of_nat 7) with 7%Z in H7. change (Z.of_nat 13) with 13%Z in H13.
  change (Z.of_nat 33) with 33%Z in H33.
  rewrite H7, bind_Ok, H13, bind_Ok, H33, bind_Ok, Hl, bind_Ok.
  eexists. split; [reflexivity|]. simpl. repeat split; assumption.
Qed.

(** The mask of [==] selects the rows with the title, the first one first. *)
Lemma mask_select_first_title (title : string) (pre post : list (list cell)) (r : list cell) :
  Forall (λ r', ¬ has_title title r') pre →
  has_title title r →
  ∃ rest,
    mask_select (pre ++ r :: post)
      (series_eq_str ((λ r', default NaN (r' !! 1)) <$> (pre ++ r :: post)) title)
    = r :: rest.
Proof.
  intros Hpre Hr. induction Hpre as [|r' pre Hr' Hpre IH]; simpl.
  - rewrite Hr. simpl. rewrite bool_decide_eq_true_2 by done. eauto.
  - destruct IH as [rest IH].
    assert (cell_eq_str title (default NaN (r' !! 1)) = false) as ->.
    { unfold has_title in Hr'. destruct (r' !! 1) as [[| |t]|]; simpl; try done.
      apply bool_decide_eq_false_2. congruence. }
    eauto.
Qed.

(** The loop body on a table that holds the occupation. *)
Lemma country_occupation_stats_found (title : string) (df : DataFrame)
    (pre post : list (list cell)) (r : list cell) :
  2 ≤ length (columns df) →
  rows df = pre ++ r :: post →
  Forall (λ r', ¬ has_title title r') pre →
  has_title title r →
  ∃ st, country_occupation_stats title df = Ok (Some st) ∧
        point_values (drop 2 r) = Ok st.
Proof.
  intros Hcols Hrows Hpre Hr. unfold country_occupation_stats, iloc_col.
  rewrite decide_True by lia. rewrite bind_Ok. rewrite Hrows.
  destruct (mask_select_first_title title pre post r Hpre Hr) as [rest Hsel].
  unfold empty_df, boolean_index, iloc_row_from. simpl. rewrite Hrows, Hsel. simpl.
  rewrite (bool_decide_eq_false_2 (length (columns df) = 0)) by lia. simpl.
  destruct (point_values_Ok (drop 2 r)) as (st & Hst & _).
  exists st. by rewrite Hst.
Qed.

(** The loop body raises only on a table with fewer than two columns. *)
Lemma country_occupation_stats_Ok (title : string) (df : DataFrame) :
  2 ≤ length (columns df) → ∃ ob, country_occupation_stats title df = Ok ob.
Proof.
  intros Hcols. unfold country_occupation_stats, iloc_col.
  rewrite decide_True by lia. rewrite bind_Ok.
  unfold empty_df, iloc_row_from, boolean_index. simpl.
  destruct (mask_select _ _) as [|r rest]; simpl; [eauto|].
  rewrite (bool_decide_eq_false_2 (length (columns df) = 0)) by lia. simpl.
  destruct (point_values_Ok (drop 2 r)) as (st & -> & _). eauto.
Qed.

(** A table without its two identifier columns makes the whole call raise. *)
Lemma stats_raise_without_identifier_columns (title : string)
    (country_data : gmap string DataFrame) (code : string) (df : DataFrame) :
  country_data !! code = Some df → length (columns df) < 2 →
  raises (calculate_country_occupation_stats title country_data).
Proof.
  intros Hdf Hcols. apply dict_for_Raise. exists code, df. split; [done|].
  exists IndexError. unfold country_occupation_stats, iloc_col.
  by rewrite decide_False by lia.
Qed.

(** C1. For the row of an occupation (the first row of the table with the
    title) whose probability sequence [probs] has length [L], the extractor
    returns, under the country's code, [current = probs[7]] if [L > 7] else
    [0], [outlook = probs[13]] if [L > 13] else [0], [midterm = probs[33]]
    if [L > 33] else [0] and [final = probs[L-1]] if [L > 0] else [0]. *)
Theorem C1_statistics_extraction (title : string)
    (country_data : gmap string DataFrame) (code : string) (df : DataFrame)
    (pre post : list (list cell)) (r : list cell) :
  (∀ c d, country_data !! c = Some d → 2 ≤ length (columns d)) →
  country_data !! code = Some df →
  rows df = pre ++ r :: post →
  Forall (λ r', ¬ has_title title r') pre →
  has_title title r →
  let probs := drop 2 r in
  let L := length probs in
  ∃ stats st,
    calculate_country_occupation_stats title country_data = Ok stats ∧
    stats !! code = Some st ∧
    probabilities st = probs ∧
    years st = take L all_years ∧
    (7 < L → probs !! 7 = Some (current_2024 st)) ∧
    (L ≤ 7 → current_2024 st = Num 0) ∧
    (13 < L → probs !! 13 = Some (outlook_2030 st)) ∧
    (L ≤ 13 → outlook_2030 st = Num 0) ∧
    (33 < L → probs !! 33 = Some (midterm_2050 st)) ∧
    (L ≤ 33 → midterm_2050 st = Num 0) ∧
    (0 < L → probs !! (L - 1) = Some (final_2107 st)) ∧
    (L = 0 → final_2107 st = Num 0).
Proof.
  intros Hcols Hdf Hrows Hpre Hr probs L.
  destruct (dict_for_Ok (λ _ d, country_occupation_stats title d) country_data)
    as (stats & Hstats & _ & Hbody).
  { intros k d Hk. apply country_occupation_stats_Ok. by apply (Hcols k). }
  destruct (country_occupation_stats_found title df pre post r) as (st & Hst & Hpv);
    [by apply (Hcols code)|done..|].
  pose proof (Hbody code df Hdf) as Hcode. simpl in Hcode.
  rewrite Hst in Hcode. injection Hcode as Hcode.
  destruct (point_values_Ok probs) as (st' & Hst' & Hspec).
  unfold probs in Hst'. rewrite Hpv in Hst'. injection Hst' as <-.
  exists stats, st. split; [exact Hstats|]. split; [done|]. exact Hspec.
Qed.

Lemma C1_statistics_extraction_witness :
  ∃ stats st,
    calculate_country_occupation_stats "Software Developer"
      {[ "USA" := sample_table 91 ]} = Ok stats ∧
    stats !! "USA" = Some st ∧
    current_2024 st = Num (10 # 100) ∧
    outlook_2030 st = Num (16 # 100) ∧
    midterm_2050 st = Num (36 # 100) ∧
    final_2107 st = Num (93 # 100).
Proof.
  destruct (C1_statistics_extraction "Software Developer"
              {[ "USA" := sample_table 91 ]} "USA" (sample_table 91)
              [sample_row "11-1011" "Chief Executives" 0 91] []
              (sample_row "15-1252" "Software Developer" 3 91))
    as (stats & st & Hstats & Hst & _ & _ & H7 & _ & H13 & _ & H33 & _ & Hl & _).
  - intros c d [<- <-]%lookup_singleton_Some. vm_compute. lia.
  - apply lookup_singleton_eq.
  - reflexivity.
  - repeat constructor. unfold has_title. simpl. congruence.
  - reflexivity.
  - exists stats, st. split; [exact Hstats|]. split; [exact Hst|].
    specialize (H7 ltac:(vm_compute; lia)). specialize (H13 ltac:(vm_compute; lia)).
    specialize (H33 ltac:(vm_compute; lia)). specialize (Hl ltac:(vm_compute; lia)).
    change (Some (Num (10 # 100)) = Some (current_2024 st)) in H7.
    change (Some (Num (16 # 100)) = Some (outlook_2030 st)) in H13.
    change (Some (Num (36 # 100)) = Some (midterm_2050 st)) in H33.
    change (Some (Num (93 # 100)) = Some (final_2107 st)) in Hl.
    repeat split; congruence.
Defined.

(** The table lengths 0, 5, 8, 14, 34 and 91 of the specification's test. *)
Example point_values_lengths :
  (λ n, (λ st, (current_2024 st, outlook_2030 st, midterm_2050 st, final_2107 st))
        <$> (match point_values (drop 2 (sample_row "15-1252" "Software Developer" 0 n)) with
             | Ok st => Some st | Raise _ => None end))
  <$> [0; 5; 8; 14; 34; 91]
  = [ Some (Num 0, Num 0, Num 0, Num 0);
      Some (Num 0, Num 0, Num 0, Num (4 # 100));
      Some (Num (7 # 100), Num 0, Num 0, Num (7 # 100));
      Some (Num (7 # 100), Num (13 # 100), Num 0, Num (13 # 100));
      Some (Num (7 # 100), Num (13 # 100), Num (33 # 100), Num (33 # 100));
      Some (Num (7 # 100), Num (13 # 100), Num (33 # 100), Num (90 # 100)) ].
Proof. vm_compute. reflexivity. Qed.

(** C2. On the row of [malformed_table] whose 2024 cell is the text [n/a]
    and whose last cell is missing, [calculate_country_occupation_stats]
    returns the cells as they are: [current_2024] is the text and
    [final_2107] is NaN, neither is 0. *)
Theorem C2_malformed_cells_not_coerced :
  (stats ← calculate_country_occupation_stats "Software Developer"
             {[ "USA" := malformed_table ]};
   Ok ((λ st, (current_2024 st, final_2107 st)) <$> stats !! "USA"))
  = Ok (Some (Str "n/a", NaN)).
Proof. vm_compute. reflexivity. Qed.

(** Whatever the cells hold, the extractor returns when every table has
    its two identifier columns. *)
Theorem stats_never_raise (title : string) (country_data : gmap string DataFrame) :
  (∀ c d, country_data !! c = Some d → 2 ≤ length (columns d)) →
  ∃ stats, calculate_country_occupation_stats title country_data = Ok stats.
Proof.
  intros Hcols.
  destruct (dict_for_Ok (λ _ d, country_occupation_stats title d) country_data)
    as (stats & Hstats & _).
  { intros k d Hk. apply country_occupation_stats_Ok. by apply (Hcols k). }
  by exists stats.
Qed.

Lemma stats_never_raise_witness :
  ∃ stats, calculate_country_occupation_stats "Software Developer"
             {[ "USA" := malformed_table ]} = Ok stats.
Proof.
  apply (stats_never_raise "Software Developer" {[ "USA" := malformed_table ]}).
  intros c d [<- <-]%lookup_singleton_Some. vm_compute. lia.
Defined.

(** The series that [create_multi_occupation_plot] draws for the same row:
    0 in 2024 and 0 in the last year (the only text of the row, [n/a],
    denotes no number). *)
Example plot_of_malformed_table (float_repr : Q → string) :
  (fig ← create_multi_occupation_plot float_repr (λ _, None)
           ["Software Developer"] "USA" {[ "USA" := malformed_table ]};
   Ok ((λ t, (trace_y t !! 6, trace_y t !! 7, trace_y t !! 90)) <$>
       (fig ≫= λ f, f.1 !! 0)))
  = Ok (Some (Some (9 # 100), Some 0, Some 0))%Q.
Proof. vm_compute. reflexivity. Qed.

(** The sibling [create_multi_occupation_plot] does coerce: a text that
    denotes no number and a missing value both become 0. *)
Lemma plot_coerces_malformed (parse_number : string → option Q) (s : string) :
  parse_number s = None →
  nan_to_num (to_numeric_coerce parse_number (Str s)) = 0%Q ∧
  nan_to_num (to_numeric_coerce parse_number NaN) = 0%Q.
Proof. intros Hs. simpl. by rewrite Hs. Qed.

(** ** Aggregator *)

(** C3. On the table of a sheet with a header row and no data row, the
    overview has [avg_automation_2024 = NaN], not 0; the other three
    metrics are 0. *)
Theorem C3_empty_table_mean_is_NaN :
  (overview ← create_country_overview_metrics {[ "USA" := header_only_table ]};
   Ok (overview !! "USA"))
  = Ok (Some {| total_occupations := 0;
                avg_automation_2024 := NaN;
                high_risk_occupations_2050 := 0;
                high_risk_percentage := 0 |}).
Proof. vm_compute. reflexivity. Qed.

(** On a table without rows the overview returns: the count, the
    high-risk count and the percentage are 0, and the mean is 0 for a table
    of at most 9 columns and NaN for a wider one. *)
Theorem overview_of_no_rows (df : DataFrame) :
  rows df = [] →
  country_overview df
  = Ok {| total_occupations := 0;
          avg_automation_2024 :=
            if decide (9 < length (columns df)) then NaN else Num 0;
          high_risk_occupations_2050 := 0;
          high_risk_percentage := 0 |}.
Proof.
  intros Hrows. unfold country_overview, iloc_col, len_df. rewrite Hrows. simpl.
  destruct (decide (9 < length (columns df)));
    destruct (decide (35 < length (columns df))); reflexivity.
Qed.

Lemma overview_of_no_rows_witness :
  country_overview {| columns := sample_columns 3; rows := [] |}
  = Ok {| total_occupations := 0;
          avg_automation_2024 := Num 0;
          high_risk_occupations_2050 := 0;
          high_risk_percentage := 0 |}.
Proof.
  apply (overview_of_no_rows {| columns := sample_columns 3; rows := [] |}).
  reflexivity.
Defined.

(** A text in the 2024 column makes the overview raise. *)
Example overview_raises_on_text :
  create_country_overview_metrics {[ "USA" := malformed_table ]} = Raise TypeError.
Proof. vm_compute. reflexivity. Qed.

Lemma cell_gt_Num (q t : Q) : cell_gt (Num q) t = Ok (bool_decide (t < q)%Q).
Proof.
  simpl. f_equal. destruct (Qle_bool q t) eqn:Hle; simpl; symmetry.
  - apply bool_decide_eq_false_2. apply Qle_not_lt. by apply Qle_bool_iff.
  - apply bool_decide_eq_true_2. apply Qnot_le_lt. intros H%Qle_bool_iff. congruence.
Qed.

Lemma no_text_column (df : DataFrame) (j : nat) (s : string) :
  no_text df j → Str s ∉ column df j.
Proof.
  intros Hno (r & Hr & Hin)%list_elem_of_fmap.
  destruct (r !! j) as [c|] eqn:Hj; simpl in Hr; [|done].
  subst c. by apply (Hno r s).
Qed.

Lemma dropna_numbers (col : list cell) :
  (∀ s, Str s ∉ col) → dropna col = Ok (numbers col).
Proof.
  induction col as [|c col IH]; intros Hno; [done|].
  assert (dropna col = Ok (numbers col)) as Hcol.
  { apply IH. intros s Hs. apply (Hno s). by right. }
  destruct c as [q| |s]; simpl.
  - by rewrite Hcol.
  - exact Hcol.
  - exfalso. apply (Hno s). by left.
Qed.

Lemma Qnat_S_nonzero (n : nat) : ¬ (Qnat (S n) == 0)%Q.
Proof. unfold Qnat, Qeq. simpl. lia. Qed.

(** [series.mean()] is the mean of a column without text. *)
Lemma series_mean_is_mean (col : list cell) :
  (∀ s, Str s ∉ col) → ∃ m, series_mean col = Ok m ∧ is_mean col m.
Proof.
  intros Hno. unfold series_mean, is_mean. rewrite (dropna_numbers col Hno), bind_Ok.
  destruct (numbers col) as [|q qs]; simpl.
  - by exists NaN.
  - eexists. split; [reflexivity|]. eexists. split; [reflexivity|].
    rewrite Qmult_comm. apply Qmult_div_r, Qnat_S_nonzero.
Qed.

(** [(series > t).sum()] counts the rows whose value exceeds [t]. *)
Lemma series_gt_count (t : Q) (j : nat) (rs : list (list cell)) :
  (∀ r s, r ∈ rs → r !! j ≠ Some (Str s)) →
  ∃ mask, series_gt ((λ r, default NaN (r !! j)) <$> rs) t = Ok mask ∧
          bool_sum mask = length (filter (exceeds t j) rs).
Proof.
  induction rs as [|r rs IH]; intros Hno.
  - by exists [].
  - destruct IH as (mask & Hmask & Hsum).
    { intros r' s Hr'. apply Hno. by right. }
    rewrite fmap_cons, filter_cons. cbn [series_gt]. rewrite Hmask.
    destruct (r !! j) as [[q| |s]|] eqn:Hj; simpl default.
    + rewrite cell_gt_Num, !bind_Ok. eexists. split; [reflexivity|].
      simpl. rewrite Hsum. destruct (decide (exceeds t j r)) as [Hex|Hex].
      * rewrite bool_decide_eq_true_2; [done|].
        destruct Hex as (q' & Hq' & Hlt). congruence.
      * rewrite bool_decide_eq_false_2; [done|].
        intros Hlt. apply Hex. by exists q.
    + exists (false :: mask). split; [done|]. simpl. rewrite Hsum.
      rewrite decide_False; [done|]. intros (q' & Hq' & _). congruence.
    + exfalso. apply (Hno r s); [by left|done].
    + exists (false :: mask). split; [done|]. simpl. rewrite Hsum.
      rewrite decide_False; [done|]. intros (q' & Hq' & _). congruence.
Qed.

(** The loop body on a table without text in the columns 9 and 35. *)
Lemma country_overview_Ok (df : DataFrame) :
  no_text df 9 → no_text df 35 →
  ∃ o, country_overview df = Ok o ∧
    total_occupations o = length (rows df) ∧
    (if decide (9 < length (columns df))
     then is_mean (column df 9) (avg_automation_2024 o)
     else avg_automation_2024 o = Num 0) ∧
    high_risk_occupations_2050 o =
      (if decide (35 < length (columns df))
       then length (filter (exceeds (1 # 2) 35) (rows df))
       else 0) ∧
    high_risk_percentage o =
      (if decide (0 < total_occupations o)%nat
       then Qnat (high_risk_occupations_2050 o) / Qnat (total_occupations o) * 100
       else 0)%Q.
Proof.
  intros H9 H35. unfold country_overview, iloc_col.
  assert (∃ avg, (if decide (9 < length (columns df))
                  then col ← (if decide (9 < length (columns df))
                              then Ok ((λ r, default NaN (r !! 9)) <$> rows df)
                              else Raise IndexError);
                       series_mean col
                  else Ok (Num 0)) = Ok avg ∧
                 (if decide (9 < length (columns df))
                  then is_mean (column df 9) avg else avg = Num 0))
    as (avg & -> & Havg).
  { destruct (decide (9 < length (columns df))); [|by eexists].
    rewrite bind_Ok. apply series_mean_is_mean.
    intros s. by apply no_text_column. }
  assert (∃ high, (if decide (35 < length (columns df))
                   then col ← (if decide (35 < length (columns df))
                               then Ok ((λ r, default NaN (r !! 35)) <$> rows df)
                               else Raise IndexError);
                        mask ← series_gt col (1 # 2);
                        Ok (bool_sum mask)
                   else Ok 0) = Ok high ∧
                  high = (if decide (35 < length (columns df))
                          then length (filter (exceeds (1 # 2) 35) (rows df))
                          else 0))
    as (high & -> & Hhigh).
  { destruct (decide (35 < length (columns df))); [|by eexists].
    rewrite bind_Ok.
    destruct (series_gt_count (1 # 2) 35 (rows df)) as (mask & -> & Hsum).
    { intros r s Hr. by apply H35. }
    rewrite bind_Ok. by eexists. }
  rewrite !bind_Ok. eexists. split; [reflexivity|]. simpl. done.
Qed.

(** C4. A loaded table with a text in its 2050 column (column 35): the
    comparison [> 0.5] raises TypeError, and the overview computes no
    metric, neither for that country nor for the others. *)
Theorem C4_overview_raises_on_text :
  country_overview text_in_2050_table = Raise TypeError ∧
  create_country_overview_metrics
    {[ "USA" := overview_table; "Mali" := text_in_2050_table ]} = Raise TypeError.
Proof. split; vm_compute; reflexivity. Qed.

(** On tables whose columns 9 and 35 hold no text the overview returns,
    with [total_occupations] the row count, [high_risk_occupations_2050]
    the count of rows whose value at offset 35 exceeds 0.5 when the table
    has more than 35 columns and 0 otherwise, [avg_automation_2024] 0 for
    a table of at most 9 columns and otherwise a number exactly when the
    column at offset 9 holds one (NaN when it holds none), and
    [high_risk_percentage] 0 when there is no row. *)
Theorem overview_counts_without_text (country_data : gmap string DataFrame)
    (code : string) (df : DataFrame) :
  (∀ c d, country_data !! c = Some d → no_text d 9 ∧ no_text d 35) →
  country_data !! code = Some df →
  ∃ overview o,
    create_country_overview_metrics country_data = Ok overview ∧
    overview !! code = Some o ∧
    total_occupations o = length (rows df) ∧
    high_risk_occupations_2050 o =
      (if decide (35 < length (columns df))
       then length (filter (exceeds (1 # 2) 35) (rows df))
       else 0) ∧
    (length (columns df) ≤ 9 → avg_automation_2024 o = Num 0) ∧
    (9 < length (columns df) →
       (numbers (column df 9) = [] → avg_automation_2024 o = NaN) ∧
       (numbers (column df 9) ≠ [] → ∃ q, avg_automation_2024 o = Num q)) ∧
    (length (rows df) = 0 → high_risk_percentage o = 0%Q).
Proof.
  intros Hno Hdf. unfold create_country_overview_metrics.
  destruct (dict_for_Ok (λ _ d, o ← country_overview d; Ok (Some o)) country_data)
    as (overview & Hov & _ & Hbody).
  { intros k d Hk. destruct (Hno k d Hk) as [H9 H35].
    destruct (country_overview_Ok d H9 H35) as (o & -> & _). by eexists. }
  destruct (Hno code df Hdf) as [H9 H35].
  destruct (country_overview_Ok df H9 H35) as (o & Ho & Htotal & Havg & Hhigh & Hpct).
  pose proof (Hbody code df Hdf) as Hcode. simpl in Hcode.
  rewrite Ho, bind_Ok in Hcode. injection Hcode as Hcode.
  exists overview, o. split; [exact Hov|]. split; [done|].
  split; [exact Htotal|]. split; [exact Hhigh|]. split; [|split].
  - intros Hle. destruct (decide (9 < length (columns df))); [lia|done].
  - intros Hlt. destruct (decide (9 < length (columns df))); [|lia].
    unfold is_mean in Havg. destruct (numbers (column df 9)) as [|q qs].
    + split; [done|]. by intros [].
    + split; [done|]. intros _. destruct Havg as (m & Hm & _). by exists m.
  - intros Hrows. rewrite Hpct, Htotal, Hrows. by rewrite decide_False by lia.
Qed.

Lemma overview_counts_without_text_witness :
  ∃ overview o,
    create_country_overview_metrics {[ "USA" := overview_table ]} = Ok overview ∧
    overview !! "USA" = Some o ∧
    total_occupations o = 3 ∧
    high_risk_occupations_2050 o = 1 ∧
    ∃ q, avg_automation_2024 o = Num q.
Proof.
  destruct (overview_counts_without_text {[ "USA" := overview_table ]} "USA"
              overview_table)
    as (overview & o & Hov & Ho & Htotal & Hhigh & _ & Havg & _).
  - intros c d [<- <-]%lookup_singleton_Some.
    split; intros r s Hr;
      repeat (apply elem_of_cons in Hr as [->|Hr]);
      solve [ vm_compute; congruence | by apply elem_of_nil in Hr ].
  - apply lookup_singleton_eq.
  - exists overview, o. eval_rhs Htotal. eval_rhs Hhigh.
    split; [exact Hov|]. split; [exact Ho|]. split; [exact Htotal|].
    split; [exact Hhigh|].
    destruct Havg as [_ Havg]; [vm_compute; lia|].
    apply Havg. vm_compute. discriminate.
Defined.

(** Three occupations, one of them above 0.5 in 2050. *)
Example overview_table_counts :
  (overview ← create_country_overview_metrics {[ "USA" := overview_table ]};
   Ok ((λ o, (total_occupations o, high_risk_occupations_2050 o))
       <$> overview !! "USA"))
  = Ok (Some (3, 1)).
Proof. vm_compute. reflexivity. Qed.

(** ** Risk labels *)

Lemma cell_gt_true (q t : Q) : (t < q)%Q → cell_gt (Num q) t = Ok true.
Proof. intros H. rewrite cell_gt_Num. by rewrite bool_decide_eq_true_2. Qed.

Lemma cell_gt_false (q t : Q) : (q <= t)%Q → cell_gt (Num q) t = Ok false.
Proof.
  intros H. rewrite cell_gt_Num. rewrite bool_decide_eq_false_2; [done|].
  by apply Qle_not_lt.
Qed.

(** C7. The three places that label a probability compute one tier from
    the value alone: High when it exceeds 0.5, Medium when it exceeds 0.2
    and not 0.5, Low when it does not exceed 0.2. *)
Theorem C7_risk_tier (q : Q) :
  ∃ t : risk_tier,
    risk_level_compare (Num q) = Ok (tier_label t) ∧
    risk_level_table (Num q) = Ok (tier_label t) ∧
    risk_level_browse (Num q) = Ok (tier_label_browse t) ∧
    (t = High ↔ (1 # 2 < q)%Q) ∧
    (t = Medium ↔ (1 # 5 < q)%Q ∧ (q <= 1 # 2)%Q) ∧
    (t = Low ↔ (q <= 1 # 5)%Q).
Proof.
  unfold risk_level_compare, risk_level_table, risk_level_browse.
  destruct (Qlt_le_dec (1 # 2) q) as [Hhi|Hhi].
  - exists High. rewrite (cell_gt_true q (1 # 2) Hhi), !bind_Ok.
    repeat split; try done.
    + by intros [_ ?%Qle_not_lt].
    + intros Hle%Qle_not_lt. exfalso. apply Hle.
      apply Qlt_trans with (1 # 2)%Q; [reflexivity|done].
  - rewrite (cell_gt_false q (1 # 2) Hhi), !bind_Ok.
    destruct (Qlt_le_dec (1 # 5) q) as [Hmed|Hmed].
    + exists Medium. rewrite (cell_gt_true q (1 # 5) Hmed), !bind_Ok.
      repeat split; try done.
      * by intros ?%Qle_not_lt.
      * by intros ?%Qle_not_lt.
    + exists Low. rewrite (cell_gt_false q (1 # 5) Hmed), !bind_Ok.
      repeat split; try done.
      * by intros ?%Qle_not_lt.
      * by intros [?%Qlt_not_le _].
Qed.

(** The values of the specification's end-to-end test, and the thresholds. *)
Example risk_level_samples :
  risk_level_compare <$> [Num (10 # 100); Num (55 # 100); Num (1 # 5); Num (1 # 2); NaN]
  = [Ok "🟢 Low"; Ok "🔴 High"; Ok "🟢 Low"; Ok "🟡 Medium"; Ok "🟢 Low"].
Proof. vm_compute. reflexivity. Qed.

(** ** Occupation index *)

(** C6. Searching with the empty term returns the input table unchanged. *)
Theorem C6_search_empty_term (float_repr : Q → string)
    (re_compile : string → result (string → bool)) (data : DataFrame) :
  search_occupations float_repr re_compile data "" = Ok data.
Proof. reflexivity. Qed.

(** C5. The term is compiled as a regular expression: the term [.] occurs
    in no code and in no title of the sample table, and the search returns
    every row of it. *)
Theorem C5_dot_matches_every_row (float_repr : Q → string) :
  search_occupations float_repr re_compile_plain (sample_table 3) "."
    = Ok (sample_table 3) ∧
  matching_rows float_repr (sample_table 3) "." = [].
Proof. split; vm_compute; reflexivity. Qed.

(** A term that is not a well-formed pattern makes the search raise. *)
Example search_raises_on_open_parenthesis (float_repr : Q → string) :
  search_occupations float_repr re_compile_plain (sample_table 3) "("
    = Raise ReError.
Proof. vm_compute. reflexivity. Qed.

(** A missing code is searched as the text [nan]. *)
Example search_finds_nan (float_repr : Q → string) :
  rows <$> (match search_occupations float_repr re_compile_plain
                    {| columns := sample_columns 0;
                       rows := [[NaN; Str "Chief Executives"]] |} "NaN" with
            | Ok d => Some d | Raise _ => None end)
  = Some [[NaN; Str "Chief Executives"]].
Proof. vm_compute. reflexivity. Qed.

(** *** Terms made of ordinary characters *)

Lemma lower_ascii_ordinary (a : ascii) :
  re_special a = false → re_special (lower_ascii a) = false.
Proof. destruct a as [[] [] [] [] [] [] [] []]; vm_compute; congruence. Qed.

Lemma lower_literal (pat : string) :
  literal_pattern pat = true → literal_pattern (lower pat) = true.
Proof.
  unfold literal_pattern. induction pat as [|a pat IH]; [done|]. simpl.
  intros [Ha Hpat]%andb_true_iff. apply andb_true_iff. split; [|by apply IH].
  apply negb_true_iff, lower_ascii_ordinary. by apply negb_true_iff.
Qed.

(** On a pattern without a dot, matching here is being a prefix. *)
Lemma match_here_prefix (pat s : string) :
  literal_pattern pat = true →
  match_here (atoms_of pat) s = String.prefix pat s.
Proof.
  unfold literal_pattern. revert s.
  induction pat as [|a pat IH]; intros s Hs; simpl; [by destruct s|].
  simpl in Hs. apply andb_true_iff in Hs as [Ha Hpat].
  rewrite bool_decide_eq_false_2.
  2:{ intros ->. vm_compute in Ha. congruence. }
  destruct s as [|b s]; [done|]. simpl. rewrite (IH s Hpat).
  destruct (ascii_dec a b) as [->|Hne].
  - by rewrite bool_decide_eq_true_2.
  - rewrite bool_decide_eq_false_2; [done|]. congruence.
Qed.

Lemma search_atoms_contains (pat s : string) :
  literal_pattern pat = true →
  search_atoms (atoms_of pat) s = contains pat s.
Proof.
  intros Hpat. induction s as [|b s IH]; simpl.
  - by rewrite match_here_prefix.
  - by rewrite match_here_prefix, IH.
Qed.

Lemma literal_is_plain (pat : string) :
  literal_pattern pat = true → plain_pattern pat = true.
Proof.
  unfold literal_pattern, plain_pattern.
  induction (String.list_ascii_of_string pat) as [|a l IH]; [done|]. simpl.
  intros [Ha Hl]%andb_true_iff. by rewrite Ha, IH.
Qed.

(** The instance answers as Python on literal patterns. *)
Lemma re_compile_plain_literal : literal_search re_compile_plain.
Proof.
  intros pat Hpat. unfold re_compile_plain. rewrite literal_is_plain by done.
  eexists. split; [reflexivity|]. intros s. by apply search_atoms_contains.
Qed.

Lemma mask_select_or {A} (f g : A → bool) (xs : list A) :
  mask_select xs (zip_with orb (f <$> xs) (g <$> xs))
  = List.filter (λ x, f x || g x) xs.
Proof.
  induction xs as [|x xs IH]; [done|].
  rewrite !fmap_cons. cbn [zip_with mask_select List.filter].
  rewrite IH. by destruct (f x || g x).
Qed.

(** For a non-empty term made of ordinary characters, and a table with
    its two identifier columns, the search returns exactly the rows in
    which the term occurs in the code or in the title, case apart, in the
    order of the table. *)
Theorem search_literal_term (float_repr : Q → string)
    (re_compile : string → result (string → bool))
    (data : DataFrame) (term : string) :
  literal_search re_compile →
  literal_pattern term = true →
  term ≠ "" →
  2 ≤ length (columns data) →
  search_occupations float_repr re_compile data term
  = Ok {| columns := columns data;
          rows := matching_rows float_repr data term |}.
Proof.
  intros Hre Hterm Hne Hcols. unfold search_occupations, str_contains, iloc_col.
  rewrite bool_decide_eq_false_2 by done.
  rewrite !decide_True by lia.
  destruct (Hre (lower term) (lower_literal term Hterm)) as (test & -> & Htest).
  rewrite !bind_Ok. f_equal. unfold boolean_index. f_equal.
  unfold series_or, matching_rows, term_in.
  rewrite <- !list_fmap_compose.
  rewrite mask_select_or. apply filter_ext_in. intros r _. simpl.
  by rewrite !Htest.
Qed.

Lemma search_literal_term_witness :
  search_occupations (λ _, "") re_compile_plain (sample_table 3) "DEVELOP"
  = Ok {| columns := columns (sample_table 3);
          rows := [sample_row "15-1252" "Software Developer" 3 3] |}.
Proof.
  apply (search_literal_term (λ _, "") re_compile_plain (sample_table 3) "DEVELOP").
  - exact re_compile_plain_literal.
  - reflexivity.
  - discriminate.
  - vm_compute. lia.
Defined.

(** A term in the code only, in the title only, and in neither. *)
Example search_code_title_neither (float_repr : Q → string) :
  (λ term, length <$> (rows <$>
     (match search_occupations float_repr re_compile_plain (sample_table 3) term with
      | Ok d => Some d | Raise _ => None end)))
  <$> ["15-12"; "chief"; "nurse"; "1"; "e"]
  = [Some 1; Some 1; Some 0; Some 2; Some 2].
Proof. vm_compute. reflexivity. Qed.

(** ** Dataset store *)

Section LoadProperties.

Variable path_exists : string → bool.
Variable read_excel : string → result DataFrame.

Local Abbreviation load := (load_countries path_exists read_excel).
Local Abbreviation fails := (load_fails path_exists read_excel).

Lemma load_countries_snoc (countries : list (string * country_info))
    (item : string * country_info) :
  load (countries ++ [item])
  = load_one path_exists read_excel (load countries) item.
Proof. unfold load_countries. by rewrite foldl_app. Qed.

(** One turn either stores the table or reports the file. *)
Lemma load_one_cases (data : gmap string DataFrame) (missing : list string)
    (code : string) (info : country_info) :
  (∃ df, path_exists (file info) = true ∧ read_excel (file info) = Ok df ∧
         load_one path_exists read_excel (data, missing) (code, info)
         = (<[code := df]> data, missing)) ∨
  (fails info ∧
   load_one path_exists read_excel (data, missing) (code, info)
   = (data, missing ++ [file info])).
Proof.
  unfold load_one, load_fails.
  destruct (path_exists (file info)); [|right; by split; [left|]].
  destruct (read_excel (file info)) as [df|e]; [left; by exists df|].
  right. split; [right; by exists e|done].
Qed.

Lemma not_fails_loaded (info : country_info) (df : DataFrame) :
  path_exists (file info) = true → read_excel (file info) = Ok df → ¬ fails info.
Proof. intros Hex Hread [Hno|[e He]]; congruence. Qed.

(** The state after the loop, country by country. *)
Lemma load_countries_spec (countries : list (string * country_info)) :
  NoDup countries.*1 →
  (∀ code info df, (code, info) ∈ countries →
     path_exists (file info) = true → read_excel (file info) = Ok df →
     (load countries).1 !! code = Some df) ∧
  (∀ code info, (code, info) ∈ countries → fails info →
     file info ∈ (load countries).2 ∧ (load countries).1 !! code = None) ∧
  (∀ code, code ∉ countries.*1 → (load countries).1 !! code = None) ∧
  (∀ f, f ∈ (load countries).2 →
     ∃ code info, (code, info) ∈ countries ∧ file info = f ∧ fails info).
Proof.
  induction countries as [|[c i] cs IH] using rev_ind.
  { intros _. split; [|split; [|split]].
    - intros code info df Hin. by apply elem_of_nil in Hin.
    - intros code info Hin. by apply elem_of_nil in Hin.
    - intros code _. apply lookup_empty.
    - intros f Hin. by apply elem_of_nil in Hin. }
  rewrite fmap_app. intros [Hnd [Hc _]]%NoDup_app.
  assert (c ∉ cs.*1) as Hfresh by (intros Hin; apply (Hc c Hin); by left).
  destruct (IH Hnd) as (Hok & Hfail & Hout & Hmiss). clear IH.
  rewrite load_countries_snoc.
  assert (∀ code info, (code, info) ∈ cs → c ≠ code) as Hother.
  { intros code info Hin ->. apply Hfresh. apply list_elem_of_fmap. by exists (code, info). }
  assert (∀ code, code ∉ cs.*1 ++ [c] → (code ∉ cs.*1) ∧ c ≠ code) as Hnew.
  { intros code Hcode. split.
    - intros Hin. apply Hcode, elem_of_app. by left.
    - intros ->. apply Hcode, elem_of_app. right. by left. }
  destruct (load cs) as [data missing] eqn:Hload. cbn [fst snd] in *.
  destruct (load_one_cases data missing c i) as [(df & Hex & Hread & ->)|[Hf ->]];
    cbn [fst snd].
  - split; [|split; [|split]].
    + intros code info df' [Hin|Hin]%elem_of_app Hex' Hread'.
      * rewrite lookup_insert_ne by (by eapply Hother). by eapply Hok.
      * apply list_elem_of_singleton in Hin as [= -> ->].
        rewrite lookup_insert_eq. congruence.
    + intros code info [Hin|Hin]%elem_of_app Hfi.
      * rewrite lookup_insert_ne by (by eapply Hother).
        by apply (Hfail code info).
      * apply list_elem_of_singleton in Hin as [= -> ->].
        by destruct (not_fails_loaded i df).
    + intros code [Hcode Hne]%Hnew. rewrite lookup_insert_ne by done.
      by apply Hout.
    + intros f Hin. destruct (Hmiss f Hin) as (code & info & Hin' & <- & Hfi).
      exists code, info. split; [apply elem_of_app; by left|done].
  - split; [|split; [|split]].
    + intros code info df' [Hin|Hin]%elem_of_app Hex' Hread'.
      * by eapply Hok.
      * apply list_elem_of_singleton in Hin as [= -> ->].
        by destruct (not_fails_loaded i df').
    + intros code info [Hin|Hin]%elem_of_app Hfi.
      * destruct (Hfail code info Hin Hfi) as [Hm Hd].
        split; [apply elem_of_app; by left|done].
      * apply list_elem_of_singleton in Hin as [= -> ->].
        split; [apply elem_of_app; right; by left|by apply Hout].
    + intros code [Hcode Hne]%Hnew. by apply Hout.
    + intros f [Hin|Hin]%elem_of_app.
      * destruct (Hmiss f Hin) as (code & info & Hin' & <- & Hfi).
        exists code, info. split; [apply elem_of_app; by left|done].
      * apply list_elem_of_singleton in Hin as ->. exists c, i.
        split; [apply elem_of_app; right; by left|done].
Qed.

End LoadProperties.

(** C8. For every configuration of countries (a dict: the codes are
    distinct), the load tries every country: a file that exists and parses
    is stored under the country's code; a file that is absent or does not
    parse is added to the missing list, the loop goes on, and the country
    is not in the returned tables; nothing else is stored or reported. *)
Theorem C8_load_every_country (path_exists : string → bool)
    (read_excel : string → result DataFrame)
    (countries : list (string * country_info)) :
  NoDup countries.*1 →
  (∀ code info df, (code, info) ∈ countries →
     path_exists (file info) = true → read_excel (file info) = Ok df →
     (load_countries path_exists read_excel countries).1 !! code = Some df) ∧
  (∀ code info, (code, info) ∈ countries →
     load_fails path_exists read_excel info →
     file info ∈ (load_countries path_exists read_excel countries).2 ∧
     (load_countries path_exists read_excel countries).1 !! code = None) ∧
  (∀ code, code ∉ countries.*1 →
     (load_countries path_exists read_excel countries).1 !! code = None) ∧
  (∀ f, f ∈ (load_countries path_exists read_excel countries).2 →
     ∃ code info, (code, info) ∈ countries ∧ file info = f ∧
                  load_fails path_exists read_excel info).
Proof. apply load_countries_spec. Qed.

Lemma C8_load_every_country_witness :
  (load_country_data sample_exists sample_read_excel).1 !! "USA"
    = Some (sample_table 91) ∧
  ("Germany_corrected.xlsx" ∈ (load_country_data sample_exists sample_read_excel).2 ∧
   (load_country_data sample_exists sample_read_excel).1 !! "Germany" = None) ∧
  ("Mali_corrected.xlsx" ∈ (load_country_data sample_exists sample_read_excel).2 ∧
   (load_country_data sample_exists sample_read_excel).1 !! "Mali" = None).
Proof.
  destruct (C8_load_every_country sample_exists sample_read_excel COUNTRIES)
    as (Hok & Hfail & _ & _).
  - apply (bool_decide_unpack _). vm_compute. reflexivity.
  - split; [|split].
    + eapply (Hok "USA" (Build_country_info _ _ "USA_corrected.xlsx" _ _));
        [by left|reflexivity|reflexivity].
    + eapply (Hfail "Germany" (Build_country_info _ _ "Germany_corrected.xlsx" _ _));
        [right; by left|].
      right. by exists ReadError.
    + eapply (Hfail "Mali" (Build_country_info _ _ "Mali_corrected.xlsx" _ _));
        [do 5 right; by left|].
      by left.
Defined.

(** The whole result on the sample directory. *)
Example load_country_data_sample :
  load_country_data sample_exists sample_read_excel
  = ({[ "USA" := sample_table 91 ]},
     [ "Germany_corrected.xlsx"; "China_corrected.xlsx"; "Algeria_corrected.xlsx";
       "Mena_corrected.xlsx"; "Mali_corrected.xlsx" ]).
Proof. vm_compute. reflexivity. Qed.

(** ** Export adapter *)

Lemma eq_ignore_case_lower (s t : string) :
  eq_ignore_case s t = true ↔ lower s = lower t.
Proof.
  revert t. induction s as [|a s IH]; intros [|b t]; simpl; try done.
  rewrite andb_true_iff, bool_decide_eq_true, IH. split.
  - by intros [-> ->].
  - by intros [= -> ->].
Qed.

(** C10. The format string decides the branch through its lower-cased
    form alone: a string equal to [csv] up to case gives the CSV triple,
    every other string gives what the Excel writer returns for the sheet
    [Data], under the [.xlsx] name, exactly as [excel] does; no string is
    an error of its own: an exception can only be the writer's. *)
Theorem C10_export_dispatch (to_csv : bool → DataFrame → string)
    (to_excel : string → bool → DataFrame → result string)
    (data : DataFrame) (filename file_format : string) :
  ((eq_ignore_case file_format "csv" = true ∧
    export_data to_csv to_excel data filename file_format
    = Ok (to_csv false data, filename +:+ ".csv", "text/csv")) ∨
   (eq_ignore_case file_format "csv" = false ∧
    export_data to_csv to_excel data filename file_format
    = export_data to_csv to_excel data filename "excel" ∧
    export_data to_csv to_excel data filename file_format
    = (bytes ← to_excel "Data" false data;
       Ok (bytes, filename +:+ ".xlsx",
           "application/vnd.openxmlformats-officedocument.spreadsheetml.sheet")))) ∧
  (∀ e, export_data to_csv to_excel data filename file_format = Raise e →
        to_excel "Data" false data = Raise e).
Proof.
  unfold export_data.
  destruct (eq_ignore_case file_format "csv") eqn:Hcsv.
  - apply eq_ignore_case_lower in Hcsv.
    rewrite bool_decide_eq_true_2 by done. split; [by left|]. intros e [=].
  - rewrite (bool_decide_eq_false_2 (lower file_format = "csv")).
    2:{ intros Hl. apply (eq_ignore_case_lower file_format "csv") in Hl. congruence. }
    split; [by right|]. intros e.
    destruct (to_excel "Data" false data) as [bytes|e']; simpl; congruence.
Qed.

(** Upper case, mixed case, and strings that name no format. *)
Example export_formats (to_csv : bool → DataFrame → string)
    (to_excel : string → bool → DataFrame → result string) (data : DataFrame) :
  (λ fmt, export_data to_csv to_excel data "USA" fmt) <$> ["CSV"; "Csv"; "json"; ""; "csv "]
  = [ export_data to_csv to_excel data "USA" "csv";
      export_data to_csv to_excel data "USA" "csv";
      export_data to_csv to_excel data "USA" "excel";
      export_data to_csv to_excel data "USA" "excel";
      export_data to_csv to_excel data "USA" "excel" ].
Proof. reflexivity. Qed.

(** * Further properties *)

(** ** Which countries the extractor reports *)

Lemma has_title_cell_eq (title : string) (r : list cell) :
  has_title title r ↔ cell_eq_str title (default NaN (r !! 1)) = true.
Proof.
  unfold has_title. destruct (r !! 1) as [[q| |t]|]; simpl; try by split.
  rewrite bool_decide_eq_true. split; [by intros [= ->]|by intros ->].
Qed.

(** The rows of a table with the occupation split at the first of them. *)
Lemma first_row_with_title (title : string) (rs : list (list cell)) :
  (∃ r, r ∈ rs ∧ has_title title r) →
  ∃ pre r post, rs = pre ++ r :: post ∧
    Forall (λ r', ¬ has_title title r') pre ∧ has_title title r.
Proof.
  induction rs as [|r0 rs IH]; intros (r & Hin & Hr).
  - by apply elem_of_nil in Hin.
  - destruct (cell_eq_str title (default NaN (r0 !! 1))) eqn:H0.
    + exists [], r0, rs. split; [done|]. split; [constructor|].
      by apply has_title_cell_eq.
    + apply elem_of_cons in Hin as [->|Hin].
      { apply has_title_cell_eq in Hr. congruence. }
      destruct IH as (pre & r1 & post & -> & Hpre & Hr1); [by exists r|].
      exists (r0 :: pre), r1, post. split; [done|]. split; [|done].
      constructor; [|done]. intros H%has_title_cell_eq. congruence.
Qed.

Lemma mask_select_no_title (title : string) (rs : list (list cell)) :
  Forall (λ r, ¬ has_title title r) rs →
  mask_select rs (series_eq_str ((λ r, default NaN (r !! 1)) <$> rs) title) = [].
Proof.
  induction 1 as [|r rs Hr Hrs IH]; [done|]. simpl.
  destruct (cell_eq_str title (default NaN (r !! 1))) eqn:H0; [|done].
  by apply has_title_cell_eq in H0.
Qed.

Lemma title_dichotomy (title : string) (rs : list (list cell)) :
  Forall (λ r, ¬ has_title title r) rs ∨ ∃ r, r ∈ rs ∧ has_title title r.
Proof.
  induction rs as [|r rs [IH|(r' & Hin & Hr')]].
  - left. constructor.
  - destruct (cell_eq_str title (default NaN (r !! 1))) eqn:H0.
    + right. exists r. split; [by left|]. by apply has_title_cell_eq.
    + left. constructor; [|done]. intros H%has_title_cell_eq. congruence.
  - right. exists r'. split; [by right|done].
Qed.

(** The loop body reports a table exactly when it holds the occupation,
    and what it reports comes from [point_values]. *)
Lemma country_occupation_stats_cases (title : string) (df : DataFrame) :
  2 ≤ length (columns df) →
  (has_occupation title df ∧
   ∃ st probs, country_occupation_stats title df = Ok (Some st) ∧
               point_values probs = Ok st) ∨
  (¬ has_occupation title df ∧ country_occupation_stats title df = Ok None).
Proof.
  intros Hcols.
  destruct (title_dichotomy title (rows df)) as [Hall|Hocc].
  - right. split.
    + intros (r & Hin & Hr). by apply (proj1 (Forall_forall _ _) Hall r).
    + unfold country_occupation_stats, iloc_col. rewrite decide_True by lia.
      rewrite bind_Ok. unfold empty_df, boolean_index. simpl.
      by rewrite mask_select_no_title.
  - left. split; [done|].
    destruct (first_row_with_title title (rows df) Hocc)
      as (pre & r1 & post & Hrows & Hpre & Hr1).
    destruct (country_occupation_stats_found title df pre post r1)
      as (st & Hst & Hpv); [done..|].
    by exists st, (drop 2 r1).
Qed.

(** The result has an entry for a country exactly when the country has a
    table and the table holds a row with the title. *)
Theorem stats_entry_iff_occupation (title : string)
    (country_data : gmap string DataFrame) :
  (∀ c d, country_data !! c = Some d → 2 ≤ length (columns d)) →
  ∃ stats,
    calculate_country_occupation_stats title country_data = Ok stats ∧
    ∀ code, is_Some (stats !! code) ↔
            ∃ df, country_data !! code = Some df ∧ has_occupation title df.
Proof.
  intros Hcols.
  destruct (dict_for_Ok (λ _ d, country_occupation_stats title d) country_data)
    as (stats & Hstats & Hnone & Hbody).
  { intros k d Hk. apply country_occupation_stats_Ok. by apply (Hcols k). }
  exists stats. split; [exact Hstats|]. intros code.
  destruct (country_data !! code) as [df|] eqn:Hdf.
  - pose proof (Hbody code df Hdf) as Hcode. simpl in Hcode.
    destruct (country_occupation_stats_cases title df (Hcols code df Hdf))
      as [(Hocc & st & probs & Hst & _)|(Hocc & Hst)];
      rewrite Hst in Hcode; injection Hcode as <-.
    + split; [by exists df|by eexists].
    + split; [by intros [? [=]]|]. intros (df' & [= <-] & H). done.
  - rewrite (Hnone code Hdf). split; [by intros [? [=]]|by intros (? & [=] & _)].
Qed.

Lemma stats_entry_iff_occupation_witness :
  ∃ stats,
    calculate_country_occupation_stats "Telemarketers"
      {[ "USA" := sample_table 91; "Mali" := overview_table ]} = Ok stats ∧
    is_Some (stats !! "Mali") ∧ stats !! "USA" = None.
Proof.
  destruct (stats_entry_iff_occupation "Telemarketers"
              {[ "USA" := sample_table 91; "Mali" := overview_table ]})
    as (stats & Hstats & Hiff).
  - intros c d Hc. apply lookup_insert_Some in Hc as [[<- <-]|[_ Hc]].
    + vm_compute. lia.
    + apply lookup_singleton_Some in Hc as [<- <-]. vm_compute. lia.
  - exists stats. split; [exact Hstats|]. split.
    + apply Hiff. exists overview_table. split; [reflexivity|].
      exists (sample_row "41-9041" "Telemarketers" 30 91).
      split; [do 2 right; by left|reflexivity].
    + apply eq_None_not_Some. intros (df & Hdf & r & Hin & Hr)%Hiff.
      change (Some (sample_table 91) = Some df) in Hdf. injection Hdf as <-.
      repeat (apply elem_of_cons in Hin as [->|Hin]);
        [vm_compute in Hr; congruence..|by apply elem_of_nil in Hin].
Defined.

(** Every entry carries one year per probability from 2017 on, and no
    year after 2107: a row of more than 91 probabilities has 91 years. *)
Theorem stats_years_from_2017 (title : string)
    (country_data : gmap string DataFrame) :
  (∀ c d, country_data !! c = Some d → 2 ≤ length (columns d)) →
  ∃ stats,
    calculate_country_occupation_stats title country_data = Ok stats ∧
    ∀ code st, stats !! code = Some st →
      years st = seq 2017 (length (probabilities st) `min` 91).
Proof.
  intros Hcols.
  destruct (dict_for_Ok (λ _ d, country_occupation_stats title d) country_data)
    as (stats & Hstats & Hnone & Hbody).
  { intros k d Hk. apply country_occupation_stats_Ok. by apply (Hcols k). }
  exists stats. split; [exact Hstats|]. intros code st Hst.
  destruct (country_data !! code) as [df|] eqn:Hdf.
  2:{ rewrite (Hnone code Hdf) in Hst. done. }
  pose proof (Hbody code df Hdf) as Hcode. simpl in Hcode. rewrite Hst in Hcode.
  destruct (country_occupation_stats_cases title df (Hcols code df Hdf))
    as [(_ & st' & probs & Hst' & Hpv)|(_ & Hnot)]; [|congruence].
  assert (st' = st) as -> by congruence.
  destruct (point_values_Ok probs) as (st'' & Hpv' & Hprobs & Hyears & _).
  assert (st'' = st) as -> by congruence.
  rewrite Hyears, Hprobs. apply take_seq.
Qed.

Lemma stats_years_from_2017_witness :
  ∃ stats,
    calculate_country_occupation_stats "Software Developer"
      {[ "USA" := sample_table 95 ]} = Ok stats ∧
    ∀ code st, stats !! code = Some st →
      years st = seq 2017 (length (probabilities st) `min` 91).
Proof.
  apply (stats_years_from_2017 "Software Developer" {[ "USA" := sample_table 95 ]}).
  intros c d [<- <-]%lookup_singleton_Some. vm_compute. lia.
Defined.

(** A row of 95 probabilities: 95 values are drawn against 91 years. *)
Example years_stop_at_2107 :
  (stats ← calculate_country_occupation_stats "Software Developer"
             {[ "USA" := sample_table 95 ]};
   Ok ((λ st, (length (probabilities st), length (years st), last (years st)))
       <$> stats !! "USA"))
  = Ok (Some (95, 91, Some 2107)).
Proof. vm_compute. reflexivity. Qed.

(** ** Bounds of the overview *)

Lemma Qnat_le (n m : nat) : n ≤ m → (Qnat n <= Qnat m)%Q.
Proof. intros H. unfold Qnat, Qle. simpl. lia. Qed.

Lemma Qnat_pos (n : nat) : 0 < n → (0 < Qnat n)%Q.
Proof. intros H. unfold Qnat, Qlt. simpl. lia. Qed.

(** A share of a positive total, as a percentage, is between 0 and 100. *)
Lemma percentage_bounds (part total : nat) :
  part ≤ total → 0 < total →
  (0 <= Qnat part / Qnat total * 100)%Q ∧ (Qnat part / Qnat total * 100 <= 100)%Q.
Proof.
  intros Hle Hpos. pose proof (Qnat_pos total Hpos) as Htotal.
  assert (0 <= Qnat part / Qnat total)%Q as H0.
  { apply Qle_shift_div_l; [done|]. rewrite Qmult_0_l. by apply (Qnat_le 0), Nat.le_0_l. }
  assert (Qnat part / Qnat total <= 1)%Q as H1.
  { apply Qle_shift_div_r; [done|]. rewrite Qmult_1_l. by apply Qnat_le. }
  split.
  - apply Qmult_le_0_compat; [done|]. by unfold Qle.
  - apply Qle_trans with (1 * 100)%Q; [|by unfold Qle].
    apply Qmult_le_compat_r; [done|]. by unfold Qle.
Qed.

(** In every entry of the overview the high-risk count is at most the
    number of occupations, and the percentage is between 0 and 100. *)
Theorem overview_percentage_bounds (country_data : gmap string DataFrame) :
  (∀ c d, country_data !! c = Some d → no_text d 9 ∧ no_text d 35) →
  ∃ overview,
    create_country_overview_metrics country_data = Ok overview ∧
    ∀ code o, overview !! code = Some o →
      high_risk_occupations_2050 o ≤ total_occupations o ∧
      (0 <= high_risk_percentage o)%Q ∧ (high_risk_percentage o <= 100)%Q.
Proof.
  intros Hno. unfold create_country_overview_metrics.
  destruct (dict_for_Ok (λ _ d, o ← country_overview d; Ok (Some o)) country_data)
    as (overview & Hov & Hnone & Hbody).
  { intros k d Hk. destruct (Hno k d Hk) as [H9 H35].
    destruct (country_overview_Ok d H9 H35) as (o & -> & _). by eexists. }
  exists overview. split; [exact Hov|]. intros code o Ho.
  destruct (country_data !! code) as [df|] eqn:Hdf.
  2:{ rewrite (Hnone code Hdf) in Ho. done. }
  destruct (Hno code df Hdf) as [H9 H35].
  destruct (country_overview_Ok df H9 H35) as (o' & Ho' & Htotal & _ & Hhigh & Hpct).
  pose proof (Hbody code df Hdf) as Hcode. simpl in Hcode.
  rewrite Ho', bind_Ok, Ho in Hcode. injection Hcode as ->.
  assert (high_risk_occupations_2050 o ≤ total_occupations o) as Hle.
  { rewrite Hhigh, Htotal. destruct (decide (35 < length (columns df))); [|lia].
    apply length_filter. }
  split; [exact Hle|]. rewrite Hpct.
  destruct (decide (0 < total_occupations o)) as [Hpos|_].
  - by apply percentage_bounds.
  - split; by unfold Qle.
Qed.

Lemma overview_percentage_bounds_witness :
  ∃ overview,
    create_country_overview_metrics {[ "USA" := overview_table ]} = Ok overview ∧
    ∀ code o, overview !! code = Some o →
      high_risk_occupations_2050 o ≤ total_occupations o ∧
      (0 <= high_risk_percentage o)%Q ∧ (high_risk_percentage o <= 100)%Q.
Proof.
  apply (overview_percentage_bounds {[ "USA" := overview_table ]}).
  intros c d [<- <-]%lookup_singleton_Some.
  split; intros r s Hr;
    repeat (apply elem_of_cons in Hr as [->|Hr]);
    solve [ vm_compute; congruence | by apply elem_of_nil in Hr ].
Defined.

(** The overview has an entry for every loaded country and for no other. *)
Theorem overview_entry_iff_loaded (country_data : gmap string DataFrame) :
  (∀ c d, country_data !! c = Some d → no_text d 9 ∧ no_text d 35) →
  ∃ overview,
    create_country_overview_metrics country_data = Ok overview ∧
    ∀ code, is_Some (overview !! code) ↔ is_Some (country_data !! code).
Proof.
  intros Hno. unfold create_country_overview_metrics.
  destruct (dict_for_Ok (λ _ d, o ← country_overview d; Ok (Some o)) country_data)
    as (overview & Hov & Hnone & Hbody).
  { intros k d Hk. destruct (Hno k d Hk) as [H9 H35].
    destruct (country_overview_Ok d H9 H35) as (o & -> & _). by eexists. }
  exists overview. split; [exact Hov|]. intros code.
  destruct (country_data !! code) as [df|] eqn:Hdf.
  - destruct (Hno code df Hdf) as [H9 H35].
    destruct (country_overview_Ok df H9 H35) as (o & Ho & _).
    pose proof (Hbody code df Hdf) as Hcode. simpl in Hcode.
    rewrite Ho, bind_Ok in Hcode. injection Hcode as <-. split; by eexists.
  - rewrite (Hnone code Hdf). split; by intros [? [=]].
Qed.

Lemma overview_entry_iff_loaded_witness :
  ∃ overview,
    create_country_overview_metrics
      {[ "USA" := overview_table; "Mali" := header_only_table ]} = Ok overview ∧
    ∀ code, is_Some (overview !! code) ↔
            is_Some (({[ "USA" := overview_table; "Mali" := header_only_table ]}
                      : gmap string DataFrame) !! code).
Proof.
  apply (overview_entry_iff_loaded
           {[ "USA" := overview_table; "Mali" := header_only_table ]}).
  intros c d Hc. apply lookup_insert_Some in Hc as [[<- <-]|[_ Hc]].
  - split; intros r s Hr;
      repeat (apply elem_of_cons in Hr as [->|Hr]);
      solve [ vm_compute; congruence | by apply elem_of_nil in Hr ].
  - apply lookup_singleton_Some in Hc as [<- <-].
    split; intros r s Hr; by apply elem_of_nil in Hr.
Defined.

(** ** More on the search *)

Lemma lower_eq_empty (s : string) : lower s = "" → s = "".
Proof. by destruct s. Qed.

Lemma filter_sublist {A} (f : A → bool) (xs : list A) :
  List.filter f xs `sublist_of` xs.
Proof.
  induction xs as [|x xs IH]; simpl; [constructor|].
  destruct (f x); by constructor.
Qed.

Lemma filter_filter {A} (f : A → bool) (xs : list A) :
  List.filter f (List.filter f xs) = List.filter f xs.
Proof.
  induction xs as [|x xs IH]; [done|]. simpl.
  destruct (f x) eqn:Hx; [|done]. simpl. by rewrite Hx, IH.
Qed.

(** The search with a compiled pattern: the rows the test accepts. *)
Lemma search_with_test (float_repr : Q → string)
    (re_compile : string → result (string → bool))
    (data : DataFrame) (term : string) (test : string → bool) :
  term ≠ "" → 2 ≤ length (columns data) →
  re_compile (lower term) = Ok test →
  search_occupations float_repr re_compile data term
  = Ok {| columns := columns data;
          rows := List.filter
                    (λ r, test (lower (astype_str float_repr (default NaN (r !! 0))))
                          || test (lower (astype_str float_repr (default NaN (r !! 1)))))
                    (rows data) |}.
Proof.
  intros Hne Hcols Hre. unfold search_occupations, str_contains, iloc_col.
  rewrite bool_decide_eq_false_2 by done.
  rewrite !decide_True by lia. rewrite Hre, !bind_Ok.
  unfold boolean_index, series_or. do 2 f_equal.
  rewrite <- !list_fmap_compose. by rewrite mask_select_or.
Qed.

(** Whatever the pattern language, a search that compiles its term
    returns the table's columns and a selection of its rows, in their
    order: a row is kept exactly when the pattern is found in its
    lower-cased code or title. *)
Theorem search_returns_subtable (float_repr : Q → string)
    (re_compile : string → result (string → bool))
    (data : DataFrame) (term : string) (test : string → bool) :
  term ≠ "" → 2 ≤ length (columns data) →
  re_compile (lower term) = Ok test →
  ∃ found,
    search_occupations float_repr re_compile data term = Ok found ∧
    columns found = columns data ∧
    rows found `sublist_of` rows data ∧
    ∀ r, r ∈ rows found ↔
         r ∈ rows data ∧
         (test (lower (astype_str float_repr (default NaN (r !! 0)))) = true ∨
          test (lower (astype_str float_repr (default NaN (r !! 1)))) = true).
Proof.
  intros Hne Hcols Hre. eexists. split; [by apply search_with_test|].
  simpl. split; [done|]. split; [apply filter_sublist|].
  intros r. rewrite list_elem_of_In, filter_In, <- list_elem_of_In.
  by rewrite orb_true_iff.
Qed.

Lemma search_returns_subtable_witness :
  ∃ found,
    search_occupations (λ _, "") re_compile_plain (sample_table 3) "S.FT" = Ok found ∧
    columns found = columns (sample_table 3) ∧
    rows found `sublist_of` rows (sample_table 3).
Proof.
  destruct (search_returns_subtable (λ _, "") re_compile_plain (sample_table 3)
              "S.FT" (search_atoms (atoms_of "s.ft")))
    as (found & Hfound & Hcols & Hsub & _).
  - discriminate.
  - vm_compute. lia.
  - reflexivity.
  - by exists found.
Defined.

(** A search with a term: a table without its two identifier columns
    raises IndexError, and a term that does not compile raises the
    pattern's error as soon as the table has a column. *)
Theorem search_errors (float_repr : Q → string)
    (re_compile : string → result (string → bool))
    (data : DataFrame) (term : string) :
  term ≠ "" →
  (length (columns data) = 0 →
     search_occupations float_repr re_compile data term = Raise IndexError) ∧
  (∀ e, 0 < length (columns data) → re_compile (lower term) = Raise e →
     search_occupations float_repr re_compile data term = Raise e) ∧
  (∀ test, length (columns data) = 1 → re_compile (lower term) = Ok test →
     search_occupations float_repr re_compile data term = Raise IndexError).
Proof.
  intros Hne. unfold search_occupations, str_contains, iloc_col.
  rewrite bool_decide_eq_false_2 by done. split; [|split].
  - intros Hcols.
    destruct (decide (0 < length (columns data))) as [?|_]; [lia|done].
  - intros e Hcols Hre.
    destruct (decide (0 < length (columns data))) as [_|?]; [|lia].
    by rewrite bind_Ok, Hre.
  - intros test Hcols Hre.
    destruct (decide (0 < length (columns data))) as [_|?]; [|lia].
    destruct (decide (1 < length (columns data))) as [?|_]; [lia|].
    by rewrite bind_Ok, Hre.
Qed.

Lemma search_errors_witness :
  search_occupations (λ _, "") re_compile_plain
    {| columns := []; rows := [] |} "dev" = Raise IndexError ∧
  search_occupations (λ _, "") re_compile_plain (sample_table 3) "(" = Raise ReError ∧
  search_occupations (λ _, "") re_compile_plain
    {| columns := ["Occupation"]; rows := [[Str "Software Developer"]] |} "dev"
  = Raise IndexError.
Proof.
  split; [|split].
  - destruct (search_errors (λ _, "") re_compile_plain
                {| columns := []; rows := [] |} "dev") as (Hindex & _ & _);
      [discriminate|].
    by apply Hindex.
  - destruct (search_errors (λ _, "") re_compile_plain (sample_table 3) "(")
      as (_ & Hpattern & _); [discriminate|].
    apply Hpattern; [vm_compute; lia|reflexivity].
  - destruct (search_errors (λ _, "") re_compile_plain
                {| columns := ["Occupation"]; rows := [[Str "Software Developer"]] |}
                "dev") as (_ & _ & Hone); [discriminate|].
    by apply (Hone (search_atoms (atoms_of "dev"))).
Defined.

(** The case of the term plays no part: two terms equal up to case give
    the same result, whatever the pattern language. *)
Theorem search_term_case (float_repr : Q → string)
    (re_compile : string → result (string → bool))
    (data : DataFrame) (s t : string) :
  eq_ignore_case s t = true →
  search_occupations float_repr re_compile data s
  = search_occupations float_repr re_compile data t.
Proof.
  intros Hst%eq_ignore_case_lower. unfold search_occupations.
  destruct (decide (s = "")) as [->|Hs].
  - symmetry in Hst. apply lower_eq_empty in Hst as ->. done.
  - assert (t ≠ "") as Ht.
    { intros ->. by apply lower_eq_empty in Hst. }
    rewrite !bool_decide_eq_false_2 by done. by rewrite Hst.
Qed.

Lemma search_term_case_witness :
  search_occupations (λ _, "") re_compile_plain (sample_table 3) "DEVELOPER"
  = search_occupations (λ _, "") re_compile_plain (sample_table 3) "Developer".
Proof.
  apply (search_term_case (λ _, "") re_compile_plain (sample_table 3)
           "DEVELOPER" "Developer").
  reflexivity.
Defined.

(** For a term of ordinary characters, searching the result again with
    the same term changes nothing. *)
Theorem search_idempotent (float_repr : Q → string)
    (re_compile : string → result (string → bool))
    (data : DataFrame) (term : string) :
  literal_search re_compile →
  literal_pattern term = true →
  2 ≤ length (columns data) →
  ∃ found,
    search_occupations float_repr re_compile data term = Ok found ∧
    search_occupations float_repr re_compile found term = Ok found.
Proof.
  intros Hre Hterm Hcols.
  destruct (decide (term = "")) as [->|Hne]; [by exists data|].
  destruct (Hre (lower term) (lower_literal term Hterm)) as (test & Htest & _).
  eexists. split; [by apply (search_with_test _ _ _ _ test)|].
  rewrite (search_with_test _ _ _ _ test) by done. simpl.
  by rewrite filter_filter.
Qed.

Lemma search_idempotent_witness :
  ∃ found,
    search_occupations (λ _, "") re_compile_plain (sample_table 3) "15-" = Ok found ∧
    search_occupations (λ _, "") re_compile_plain found "15-" = Ok found.
Proof.
  apply (search_idempotent (λ _, "") re_compile_plain (sample_table 3) "15-").
  - exact re_compile_plain_literal.
  - reflexivity.
  - vm_compute. lia.
Defined.

(** ** More on the dataset store *)

(** The tables loaded and the files reported missing add up to the number
    of countries. *)
Lemma load_size_plus_missing (path_exists : string → bool)
    (read_excel : string → result DataFrame)
    (countries : list (string * country_info)) :
  NoDup countries.*1 →
  size (load_countries path_exists read_excel countries).1
  + length (load_countries path_exists read_excel countries).2
  = length countries.
Proof.
  induction countries as [|[c i] cs IH] using rev_ind; [done|].
  rewrite fmap_app. intros [Hnd [Hc _]]%NoDup_app.
  assert (c ∉ cs.*1) as Hfresh by (intros Hin; apply (Hc c Hin); by left).
  specialize (IH Hnd).
  destruct (load_countries_spec path_exists read_excel cs Hnd) as (_ & _ & Hout & _).
  specialize (Hout c Hfresh).
  rewrite load_countries_snoc, length_app. simpl.
  destruct (load_countries path_exists read_excel cs) as [data missing].
  cbn [fst snd] in *.
  destruct (load_one_cases path_exists read_excel data missing c i)
    as [(df & _ & _ & ->)|[_ ->]]; cbn [fst snd].
  - rewrite map_size_insert_None by done. lia.
  - rewrite length_app. simpl. lia.
Qed.

(** Every configured country is accounted for once: the tables loaded
    and the files reported missing add up to the number of countries. *)
Theorem load_accounts_for_every_country (path_exists : string → bool)
    (read_excel : string → result DataFrame)
    (countries : list (string * country_info)) :
  NoDup countries.*1 →
  size (load_countries path_exists read_excel countries).1
  + length (load_countries path_exists read_excel countries).2
  = length countries.
Proof. apply load_size_plus_missing. Qed.

Lemma load_accounts_for_every_country_witness :
  size (load_country_data sample_exists sample_read_excel).1
  + length (load_country_data sample_exists sample_read_excel).2 = 6.
Proof.
  apply (load_accounts_for_every_country sample_exists sample_read_excel COUNTRIES).
  apply (bool_decide_unpack _). vm_compute. reflexivity.
Defined.

(** ** Uploaded files *)

Section UploadProperties.

Variable read_excel_upload : upload → result DataFrame.
Variable countries : list (string * country_info).

Local Abbreviation uploads_of := (load_uploads read_excel_upload countries).
Local Abbreviation step := (upload_one read_excel_upload countries).

Lemma load_uploads_snoc (us : list upload) (u : upload) :
  uploads_of (us ++ [u]) = step (uploads_of us) u.
Proof. unfold load_uploads. by rewrite foldl_app. Qed.

Lemma load_uploads_app (us1 us2 : list upload) :
  uploads_of (us1 ++ us2) = foldl step (uploads_of us1) us2.
Proof. unfold load_uploads. by rewrite foldl_app. Qed.

(** The country found for a file name is a configured one with that file. *)
Lemma match_country_Some (filename code : string) :
  match_country countries filename = Some code →
  ∃ info, (code, info) ∈ countries ∧ file info = filename.
Proof.
  unfold match_country.
  destruct (list_find _ countries) as [[i [c info]]|] eqn:Hfind; [|done].
  intros [= ->]. apply list_find_Some in Hfind as (Hi & Hfile & _).
  exists info. split; [by eapply list_elem_of_lookup_2|done].
Qed.

Lemma match_country_None (filename : string) :
  (∀ code info, (code, info) ∈ countries → file info ≠ filename) →
  match_country countries filename = None.
Proof.
  intros Hno. unfold match_country.
  destruct (list_find _ countries) as [[i [c info]]|] eqn:Hfind; [|done].
  apply list_find_Some in Hfind as (Hi & Hfile & _).
  destruct (Hno c info); [by eapply list_elem_of_lookup_2|done].
Qed.

(** One turn changes at most the entry of the country it matched, and
    only with the table parsed from the upload. *)
Lemma upload_one_lookup (data : gmap string DataFrame) (u : upload)
    (code : string) (df : DataFrame) :
  step data u !! code = Some df →
  data !! code = Some df ∨
  (code ≠ "" ∧ match_country countries (upload_name u) = Some code ∧
   read_excel_upload u = Ok df).
Proof.
  unfold upload_one.
  destruct (match_country countries (upload_name u)) as [c|]; [|by left].
  case_bool_decide as Hc; [|by left].
  destruct (read_excel_upload u) as [df'|e]; [|by left].
  intros [[<- <-]|[_ ?]]%lookup_insert_Some; [by right|by left].
Qed.

(** Every table stored comes from an upload that bears the file name of
    a configured country and that parsed; the key is that country's
    code. *)
Theorem uploaded_tables_are_configured (uploaded_files : list upload)
    (code : string) (df : DataFrame) :
  uploads_of uploaded_files !! code = Some df →
  code ≠ "" ∧
  ∃ u info, u ∈ uploaded_files ∧ (code, info) ∈ countries ∧
            file info = upload_name u ∧ read_excel_upload u = Ok df.
Proof.
  induction uploaded_files as [|u us IH] using rev_ind.
  - unfold load_uploads. simpl. by rewrite lookup_empty.
  - rewrite load_uploads_snoc.
    intros [Hold|(Hne & Hmatch & Hread)]%upload_one_lookup.
    + destruct (IH Hold) as (Hne & u' & info & Hin & Hcfg & Hfile & Hread).
      split; [done|]. exists u', info. split; [|done].
      apply elem_of_app. by left.
    + split; [done|]. destruct (match_country_Some _ _ Hmatch) as (info & Hin & Hfile).
      exists u, info. split; [|done]. apply elem_of_app. right. by left.
Qed.

(** An upload whose name is the file of no country is ignored. *)
Theorem unmatched_upload_is_ignored (us1 us2 : list upload) (u : upload) :
  (∀ code info, (code, info) ∈ countries → file info ≠ upload_name u) →
  uploads_of (us1 ++ u :: us2) = uploads_of (us1 ++ us2).
Proof.
  intros Hno. rewrite !load_uploads_app. simpl. f_equal.
  unfold upload_one. by rewrite match_country_None.
Qed.

(** A later upload leaves the table of [code] alone when it is for
    another country, for none, or does not parse. *)
Lemma upload_one_keeps (data : gmap string DataFrame) (u : upload)
    (code : string) :
  (match_country countries (upload_name u) = Some code →
   raises (read_excel_upload u)) →
  step data u !! code = data !! code.
Proof.
  intros Hu. unfold upload_one.
  destruct (match_country countries (upload_name u)) as [c|]; [|done].
  case_bool_decide as Hc; [|done].
  destruct (read_excel_upload u) as [df'|e] eqn:Hread; [|done].
  destruct (decide (c = code)) as [->|Hne].
  - destruct Hu as [e He]; [done|]. congruence.
  - by rewrite lookup_insert_ne.
Qed.

(** The last upload of a country that parsed is the one stored. *)
Lemma load_uploads_last_readable (us1 us2 : list upload) (u : upload)
    (code : string) (df : DataFrame) :
  match_country countries (upload_name u) = Some code →
  code ≠ "" →
  read_excel_upload u = Ok df →
  Forall (λ u', match_country countries (upload_name u') = Some code →
                raises (read_excel_upload u')) us2 →
  uploads_of (us1 ++ u :: us2) !! code = Some df.
Proof.
  intros Hmatch Hne Hread Hlater. rewrite load_uploads_app. simpl.
  assert (step (uploads_of us1) u !! code = Some df) as Hu.
  { unfold upload_one. rewrite Hmatch, bool_decide_eq_true_2, Hread by done.
    apply lookup_insert_eq. }
  revert Hu. generalize (step (uploads_of us1) u).
  induction Hlater as [|u' us2 Hu' Hlater IH]; intros data Hdata; [done|].
  simpl. apply IH. by rewrite upload_one_keeps.
Qed.

End UploadProperties.

(** The table of a country is that of the last upload with its file name
    that parsed: an upload that does not parse erases nothing. *)
Theorem last_readable_upload_wins (read_excel_upload : upload → result DataFrame)
    (countries : list (string * country_info))
    (us1 us2 : list upload) (u : upload) (code : string) (df : DataFrame) :
  match_country countries (upload_name u) = Some code →
  code ≠ "" →
  read_excel_upload u = Ok df →
  Forall (λ u', match_country countries (upload_name u') = Some code →
                raises (read_excel_upload u')) us2 →
  load_uploads read_excel_upload countries (us1 ++ u :: us2) !! code = Some df.
Proof. apply load_uploads_last_readable. Qed.

Lemma uploaded_tables_are_configured_witness :
  "Mali" ≠ "" ∧
  ∃ u info, u ∈ sample_uploads ∧ ("Mali", info) ∈ COUNTRIES ∧
            file info = upload_name u ∧ sample_read_upload u = Ok (sample_table 3).
Proof.
  apply (uploaded_tables_are_configured sample_read_upload COUNTRIES sample_uploads).
  reflexivity.
Defined.

Lemma no_country_has_notes (code : string) (info : country_info) :
  (code, info) ∈ COUNTRIES → file info ≠ "notes.xlsx".
Proof.
  intros Hin. unfold COUNTRIES in Hin.
  repeat (apply elem_of_cons in Hin as [[= -> ->]|Hin]); try discriminate.
  by apply elem_of_nil in Hin.
Qed.

Lemma unmatched_upload_is_ignored_witness :
  load_uploaded_data sample_read_upload sample_uploads
  = load_uploaded_data sample_read_upload
      [ {| upload_name := "Mali_corrected.xlsx"; upload_bytes := "mali" |} ].
Proof.
  apply (unmatched_upload_is_ignored sample_read_upload COUNTRIES
           [ {| upload_name := "Mali_corrected.xlsx"; upload_bytes := "mali" |} ] []
           {| upload_name := "notes.xlsx"; upload_bytes := "notes" |}).
  exact no_country_has_notes.
Defined.

Lemma last_readable_upload_wins_witness :
  load_uploaded_data sample_read_upload sample_uploads !! "Mali"
  = Some (sample_table 3).
Proof.
  apply (last_readable_upload_wins sample_read_upload COUNTRIES []
           [ {| upload_name := "notes.xlsx"; upload_bytes := "notes" |} ]
           {| upload_name := "Mali_corrected.xlsx"; upload_bytes := "mali" |}).
  - reflexivity.
  - discriminate.
  - reflexivity.
  - repeat constructor. discriminate.
Defined.

(** ** The head of [main] *)

Lemma COUNTRIES_NoDup : NoDup COUNTRIES.*1.
Proof. apply (bool_decide_unpack _). vm_compute. reflexivity. Qed.

(** In the configuration every file belongs to one country, with a code
    that is not empty. *)
Lemma COUNTRIES_match (code : string) (info : country_info) :
  (code, info) ∈ COUNTRIES →
  match_country COUNTRIES (file info) = Some code ∧ code ≠ "".
Proof.
  intros Hin. unfold COUNTRIES in Hin.
  repeat (apply elem_of_cons in Hin as [[= -> ->]|Hin]);
    try (split; [reflexivity|discriminate]).
  by apply elem_of_nil in Hin.
Qed.

Lemma NoDup_fst_functional {A B} (l : list (A * B)) (x : A) (y1 y2 : B) :
  NoDup l.*1 → (x, y1) ∈ l → (x, y2) ∈ l → y1 = y2.
Proof.
  induction l as [|[a b] l IH]; intros Hnd H1 H2; [by apply elem_of_nil in H1|].
  rewrite fmap_cons in Hnd. apply NoDup_cons in Hnd as [Ha Hnd].
  assert (∀ y, (a, y) ∈ l → False) as Hfresh.
  { intros y Hy. apply Ha. apply list_elem_of_fmap. by exists (a, y). }
  apply elem_of_cons in H1 as [H1|H1]; apply elem_of_cons in H2 as [H2|H2].
  - congruence.
  - injection H1 as -> _. by destruct (Hfresh y2).
  - injection H2 as -> _. by destruct (Hfresh y1).
  - by apply IH.
Qed.

(** The dashboard never goes on without a table; and when a file is
    missing and nothing is uploaded it stops, whatever else was loaded. *)
Theorem main_never_proceeds_without_tables
    (read_excel_upload : upload → result DataFrame)
    (path_exists : string → bool) (read_excel : string → result DataFrame)
    (uploaded_files : list upload) :
  (∀ country_data,
     main_country_data read_excel_upload path_exists read_excel uploaded_files
     = Some country_data →
     size country_data ≠ 0) ∧
  ((load_country_data path_exists read_excel).2 ≠ [] →
   main_country_data read_excel_upload path_exists read_excel [] = None).
Proof.
  unfold main_country_data.
  pose proof (load_size_plus_missing path_exists read_excel COUNTRIES
                COUNTRIES_NoDup) as Hcount.
  fold (load_country_data path_exists read_excel) in Hcount.
  destruct (load_country_data path_exists read_excel) as [data missing].
  cbn [fst snd] in *. split.
  - intros cd. case_bool_decide as Hmissing.
    + case_bool_decide; [|done]. case_decide; [|done]. congruence.
    + intros [= <-]. subst missing.
      simpl in Hcount. change (length COUNTRIES) with 6 in Hcount. lia.
  - intros Hmissing. by rewrite bool_decide_eq_true_2.
Qed.

(** When a file is missing, a country whose file is uploaded and parses
    is shown with the uploaded table, whatever was read from the disk. *)
Theorem uploaded_table_is_shown
    (read_excel_upload : upload → result DataFrame)
    (path_exists : string → bool) (read_excel : string → result DataFrame)
    (us1 us2 : list upload) (u : upload)
    (code : string) (info : country_info) (df : DataFrame) :
  (load_country_data path_exists read_excel).2 ≠ [] →
  (code, info) ∈ COUNTRIES →
  upload_name u = file info →
  read_excel_upload u = Ok df →
  Forall (λ u', upload_name u' = file info → raises (read_excel_upload u')) us2 →
  ∃ country_data,
    main_country_data read_excel_upload path_exists read_excel (us1 ++ u :: us2)
    = Some country_data ∧
    country_data !! code = Some df.
Proof.
  intros Hmissing Hin Hname Hread Hlater.
  destruct (COUNTRIES_match code info Hin) as [Hmatch Hne].
  assert (load_uploaded_data read_excel_upload (us1 ++ u :: us2) !! code = Some df)
    as Hup.
  { apply load_uploads_last_readable; [by rewrite Hname|done..|].
    eapply Forall_impl; [exact Hlater|]. intros u' Hu' Hmatch'.
    apply Hu'. apply match_country_Some in Hmatch' as (info' & Hin' & Hfile').
    destruct (COUNTRIES_match code info' Hin') as [Hm' _].
    rewrite <- Hfile'. clear -Hin Hin'.
    pose proof COUNTRIES_NoDup as Hnd.
    assert (info' = info) as ->; [|done].
    apply (NoDup_fst_functional COUNTRIES code info' info Hnd Hin' Hin). }
  unfold main_country_data.
  destruct (load_country_data path_exists read_excel) as [data missing].
  cbn [snd] in Hmissing.
  rewrite bool_decide_eq_true_2 by done.
  rewrite bool_decide_eq_true_2 by (by destruct us1).
  assert ((load_uploaded_data read_excel_upload (us1 ++ u :: us2) ∪ data) !! code
          = Some df) as Hcode by (by apply lookup_union_Some_l).
  rewrite decide_True.
  - by eexists.
  - intros Hsize%map_size_empty_iff. rewrite Hsize in Hcode.
    by rewrite lookup_empty in Hcode.
Qed.

Lemma uploaded_table_is_shown_witness :
  ∃ country_data,
    main_country_data sample_read_upload sample_exists sample_read_excel
      sample_uploads = Some country_data ∧
    country_data !! "Mali" = Some (sample_table 3).
Proof.
  eapply (uploaded_table_is_shown sample_read_upload sample_exists sample_read_excel
           [] [ {| upload_name := "notes.xlsx"; upload_bytes := "notes" |} ]
           {| upload_name := "Mali_corrected.xlsx"; upload_bytes := "mali" |}
           "Mali" (Build_country_info _ _ "Mali_corrected.xlsx" _ _)).
  - vm_compute. discriminate.
  - do 5 right. by left.
  - reflexivity.
  - reflexivity.
  - repeat constructor. discriminate.
Defined.

(** ** The country check boxes *)

Lemma countries_getitem_configured (code : string) :
  code ∈ COUNTRIES.*1 → ∃ info, countries_getitem code = Ok info.
Proof.
  intros ([c info] & Hc & Hin)%list_elem_of_fmap. simpl in Hc. subst code.
  unfold countries_getitem.
  destruct (list_find_elem_of (λ item : string * country_info, item.1 = c)
              COUNTRIES (c, info) Hin eq_refl) as [[i [c' info']] ->].
  by eexists.
Qed.

Lemma remove_first_spec (x : string) (l : list string) :
  NoDup l →
  NoDup (remove_first x l) ∧ ∀ y, y ∈ remove_first x l ↔ y ∈ l ∧ y ≠ x.
Proof.
  induction l as [|a l IH]; intros Hnd; simpl.
  - split; [done|]. intros y. split; [by intros ?%elem_of_nil|by intros [?%elem_of_nil _]].
  - apply NoDup_cons in Hnd as [Ha Hnd]. destruct (decide (x = a)) as [->|Hne].
    + split; [done|]. intros y. rewrite elem_of_cons. split.
      * intros Hy. split; [by right|]. by intros ->.
      * by intros [[->|Hy] Hne].
    + destruct (IH Hnd) as [IHnd IHin]. split.
      * apply NoDup_cons. split; [|done]. rewrite IHin. by intros [? _].
      * intros y. rewrite !elem_of_cons, IHin. split.
        -- intros [->|[Hy Hyx]]; [by split; [left|]|by split; [right|]].
        -- intros [[->|Hy] Hyx]; [by left|by right].
Qed.

(** One check box makes the country selected exactly when the box is
    checked, and touches no other country. *)
Lemma select_one_spec (checked : string → bool) (selected : list string)
    (code : string) :
  code ∈ COUNTRIES.*1 → NoDup selected →
  ∃ selected', select_one checked selected code = Ok selected' ∧
    NoDup selected' ∧
    (code ∈ selected' ↔ checked code = true) ∧
    ∀ c, c ≠ code → (c ∈ selected' ↔ c ∈ selected).
Proof.
  intros Hcode Hnd. unfold select_one.
  destruct (countries_getitem_configured code Hcode) as [info ->].
  rewrite bind_Ok. destruct (checked code); eexists; (split; [reflexivity|]).
  - case_bool_decide as Hin.
    + split; [done|]. split; [done|]. done.
    + split; [|split].
      * apply NoDup_app. split; [done|]. split; [|apply NoDup_singleton].
        intros c Hc ->%list_elem_of_singleton. done.
      * split; [done|]. intros _. apply elem_of_app. right. by left.
      * intros c Hne. rewrite elem_of_app, list_elem_of_singleton. tauto.
  - case_bool_decide as Hin.
    + destruct (remove_first_spec code selected Hnd) as [Hnd' Hin'].
      split; [done|]. split.
      * rewrite Hin'. split; [by intros [_ ?]|done].
      * intros c Hne. rewrite Hin'. tauto.
    + split; [done|]. split; [|done]. split; [done|discriminate].
Qed.

(** After the loop over the check boxes, an available country is
    selected exactly when its box is checked, the other entries of the
    selection are as they were, and the selection has no duplicate. *)
Theorem select_countries_spec (checked : string → bool)
    (available selected : list string) :
  Forall (λ c, c ∈ COUNTRIES.*1) available →
  NoDup selected →
  ∃ selected',
    select_countries checked available selected = Ok selected' ∧
    NoDup selected' ∧
    (∀ c, c ∈ available → (c ∈ selected' ↔ checked c = true)) ∧
    (∀ c, c ∉ available → (c ∈ selected' ↔ c ∈ selected)).
Proof.
  intros Havail. revert selected.
  induction Havail as [|code rest Hcode Hrest IH]; intros selected Hnd.
  - exists selected. split; [done|]. split; [done|]. split; [|done].
    intros c Hc. by apply elem_of_nil in Hc.
  - destruct (select_one_spec checked selected code Hcode Hnd)
      as (sel1 & Hsel1 & Hnd1 & Hcode1 & Hother1).
    destruct (IH sel1 Hnd1) as (sel2 & Hsel2 & Hnd2 & Hin2 & Hout2).
    exists sel2. cbn [select_countries]. rewrite Hsel1, bind_Ok.
    split; [done|]. split; [done|]. split.
    + intros c Hc. destruct (decide (c ∈ rest)) as [Hr|Hr]; [by apply Hin2|].
      apply elem_of_cons in Hc as [->|Hc]; [|done].
      by rewrite (Hout2 code Hr).
    + intros c Hc. apply not_elem_of_cons in Hc as [Hne Hr].
      rewrite (Hout2 c Hr). by apply Hother1.
Qed.

Lemma select_countries_spec_witness :
  ∃ selected',
    select_countries (λ c, bool_decide (c = "Mali")) ["USA"; "Mali"] ["USA"; "China"]
    = Ok selected' ∧
    NoDup selected' ∧
    (∀ c, c ∈ ["USA"; "Mali"] → (c ∈ selected' ↔ bool_decide (c = "Mali") = true)) ∧
    (∀ c, c ∉ ["USA"; "Mali"] → (c ∈ selected' ↔ c ∈ ["USA"; "China"])).
Proof.
  apply (select_countries_spec (λ c, bool_decide (c = "Mali")) ["USA"; "Mali"]
           ["USA"; "China"]).
  - repeat constructor; apply (bool_decide_unpack _); vm_compute; reflexivity.
  - apply (bool_decide_unpack _). vm_compute. reflexivity.
Defined.

(** Unchecking the USA and checking Mali. *)
Example select_countries_sample :
  select_countries (λ c, bool_decide (c = "Mali")) ["USA"; "Mali"] ["USA"; "China"]
  = Ok ["China"; "Mali"].
Proof. vm_compute. reflexivity. Qed.

(** [remove] takes one occurrence: on a selection with a duplicate, an
    unchecked country stays selected. *)
Example select_countries_duplicate :
  select_countries (λ _, false) ["USA"] ["USA"; "USA"] = Ok ["USA"].
Proof. vm_compute. reflexivity. Qed.

(** ** The figures *)

(** A loop body that returns on every item makes [mapM] return, item by
    item. *)
Lemma mapM_Ok {A B} (f : A → result B) (P : B → Prop) (l : list A) :
  (∀ a, a ∈ l → ∃ b, f a = Ok b ∧ P b) →
  ∃ bs, mapM f l = Ok bs ∧ Forall P bs ∧ length bs = length l.
Proof.
  induction l as [|a l IH]; intros Hf.
  - by exists [].
  - destruct (Hf a) as (b & Hb & HP); [by left|].
    destruct IH as (bs & Hbs & HPs & Hlen); [intros a' Ha'; apply Hf; by right|].
    exists (b :: bs). cbn [mapM]. rewrite Hb, bind_Ok, Hbs, bind_Ok.
    split; [done|]. split; [by constructor|]. simpl. by rewrite Hlen.
Qed.

Lemma omap_id_Forall {B} (P : B → Prop) (obs : list (option B)) :
  Forall (λ ob, ∀ b, ob = Some b → P b) obs →
  Forall P (omap id obs) ∧ length (omap id obs) ≤ length obs.
Proof.
  induction 1 as [|ob obs Hob Hobs [IH1 IH2]]; [by split|].
  destruct ob as [b|]; simpl.
  - split; [constructor; [by apply Hob|done]|by apply le_n_S].
  - split; [done|by apply Nat.le_le_succ_r].
Qed.

(** The body of the multi-occupation loop returns on every table with
    its identifier columns, and pairs each value with a year. *)
Lemma occupation_trace_Ok (float_repr : Q → string)
    (parse_number : string → option Q) (df : DataFrame) (occ_title : string) :
  2 ≤ length (columns df) →
  ∃ ot, occupation_trace float_repr parse_number df occ_title = Ok ot ∧
    ∀ t, ot = Some t → trace_x t = seq 2017 (length (trace_y t)).
Proof.
  intros Hcols. unfold occupation_trace, iloc_col.
  destruct (decide (1 < length (columns df))) as [_|?]; [|lia]. rewrite bind_Ok.
  unfold empty_df, iloc_row_from, boolean_index. simpl.
  destruct (mask_select _ _) as [|r rest]; simpl.
  - eexists. split; [reflexivity|]. by intros t [=].
  - rewrite (bool_decide_eq_false_2 (length (columns df) = 0)) by lia. simpl.
    eexists. split; [reflexivity|]. by intros t [= <-].
Qed.

(** For a loaded, configured country the multi-occupation figure is
    drawn whatever the cells hold: at most one trace per selected
    occupation, every value a number, and as many years from 2017 on as
    values. *)
Theorem multi_plot_traces (float_repr : Q → string)
    (parse_number : string → option Q) (selected_occupations : list string)
    (country_code : string) (country_data : gmap string DataFrame)
    (df : DataFrame) :
  country_data !! country_code = Some df →
  2 ≤ length (columns df) →
  country_code ∈ COUNTRIES.*1 →
  ∃ traces title,
    create_multi_occupation_plot float_repr parse_number selected_occupations
      country_code country_data = Ok (Some (traces, title)) ∧
    length traces ≤ length selected_occupations ∧
    Forall (λ t, trace_x t = seq 2017 (length (trace_y t))) traces.
Proof.
  intros Hdf Hcols Hcode. unfold create_multi_occupation_plot. rewrite Hdf.
  destruct (mapM_Ok (occupation_trace float_repr parse_number df)
              (λ ot, ∀ t, ot = Some t → trace_x t = seq 2017 (length (trace_y t)))
              selected_occupations) as (ots & -> & Hots & Hlen).
  { intros occ _. by apply occupation_trace_Ok. }
  destruct (countries_getitem_configured country_code Hcode) as [info ->].
  rewrite !bind_Ok. destruct (omap_id_Forall _ ots Hots) as [Hall Hle].
  eexists _, _. split; [reflexivity|]. split; [lia|done].
Qed.

Lemma multi_plot_traces_witness :
  ∃ traces title,
    create_multi_occupation_plot (λ _, "") (λ _, None)
      ["Software Developer"; "Nurse"] "USA" {[ "USA" := malformed_table ]}
    = Ok (Some (traces, title)) ∧
    length traces ≤ 2 ∧
    Forall (λ t, trace_x t = seq 2017 (length (trace_y t))) traces.
Proof.
  apply (multi_plot_traces (λ _, "") (λ _, None) ["Software Developer"; "Nurse"]
           "USA" {[ "USA" := malformed_table ]} malformed_table).
  - apply lookup_singleton_eq.
  - vm_compute. lia.
  - apply (bool_decide_unpack _). vm_compute. reflexivity.
Defined.

(** A country without a table gives no figure, and no error. *)
Example multi_plot_without_table (float_repr : Q → string)
    (parse_number : string → option Q) :
  create_multi_occupation_plot float_repr parse_number ["Software Developer"]
    "Mali" {[ "USA" := sample_table 3 ]} = Ok None.
Proof. reflexivity. Qed.

(** Where an entry of the extractor comes from: the first row of the
    country's table with the title. *)
Lemma stats_entry_source (title : string) (country_data : gmap string DataFrame) :
  (∀ c d, country_data !! c = Some d → 2 ≤ length (columns d)) →
  ∃ stats,
    calculate_country_occupation_stats title country_data = Ok stats ∧
    ∀ code st, stats !! code = Some st →
      ∃ df pre r post,
        country_data !! code = Some df ∧ rows df = pre ++ r :: post ∧
        Forall (λ r', ¬ has_title title r') pre ∧ has_title title r ∧
        point_values (drop 2 r) = Ok st.
Proof.
  intros Hcols.
  destruct (dict_for_Ok (λ _ d, country_occupation_stats title d) country_data)
    as (stats & Hstats & Hnone & Hbody).
  { intros k d Hk. apply country_occupation_stats_Ok. by apply (Hcols k). }
  exists stats. split; [exact Hstats|]. intros code st Hst.
  destruct (country_data !! code) as [df|] eqn:Hdf.
  2:{ rewrite (Hnone code Hdf) in Hst. done. }
  pose proof (Hbody code df Hdf) as Hcode. simpl in Hcode. rewrite Hst in Hcode.
  destruct (country_occupation_stats_cases title df (Hcols code df Hdf))
    as [(Hocc & _)|(_ & Hnot)]; [|congruence].
  destruct (first_row_with_title title (rows df) Hocc)
    as (pre & r & post & Hrows & Hpre & Hr).
  destruct (country_occupation_stats_found title df pre post r)
    as (st' & Hst' & Hpv); [by apply (Hcols code)|done..|].
  assert (st' = st) as -> by congruence.
  by exists df, pre, r, post.
Qed.

(** The comparison figure has at most one trace per selected country, and
    each trace is that of a selected country holding the occupation: its
    name is the country's flag and name, its values are the cells of the
    first row with the title as they are, and its years run from 2017 and
    stop at 2107 even when the values go on. *)
Theorem comparison_plot_traces (title : string)
    (country_data : gmap string DataFrame) (selected_countries : list string) :
  (∀ c d, country_data !! c = Some d → 2 ≤ length (columns d)) →
  Forall (λ c, c ∈ COUNTRIES.*1) selected_countries →
  ∃ traces text,
    create_country_comparison_plot title country_data selected_countries
    = Ok (traces, text) ∧
    length traces ≤ length selected_countries ∧
    Forall (λ t, ∃ code info df pre r post,
              code ∈ selected_countries ∧
              countries_getitem code = Ok info ∧
              country_data !! code = Some df ∧
              rows df = pre ++ r :: post ∧
              Forall (λ r', ¬ has_title title r') pre ∧ has_title title r ∧
              country_trace_name t = flag info +:+ " " +:+ name info ∧
              country_trace_y t = drop 2 r ∧
              country_trace_x t = seq 2017 (length (drop 2 r) `min` 91))
           traces.
Proof.
  intros Hcols Hsel. unfold create_country_comparison_plot.
  destruct (stats_entry_source title country_data Hcols) as (stats & -> & Hsrc).
  rewrite bind_Ok.
  destruct (mapM_Ok (comparison_trace stats)
              (λ ot, ∀ t, ot = Some t →
                 ∃ code info df pre r post,
                   code ∈ selected_countries ∧
                   countries_getitem code = Ok info ∧
                   country_data !! code = Some df ∧
                   rows df = pre ++ r :: post ∧
                   Forall (λ r', ¬ has_title title r') pre ∧ has_title title r ∧
                   country_trace_name t = flag info +:+ " " +:+ name info ∧
                   country_trace_y t = drop 2 r ∧
                   country_trace_x t = seq 2017 (length (drop 2 r) `min` 91))
              selected_countries) as (ots & -> & Hots & Hlen).
  { intros code Hin. unfold comparison_trace.
    destruct (stats !! code) as [st|] eqn:Hst.
    - destruct (countries_getitem_configured code) as [info Hinfo].
      { by apply (proj1 (Forall_forall _ _) Hsel). }
      rewrite Hinfo, bind_Ok. eexists. split; [reflexivity|].
      intros t [= <-]. destruct (Hsrc code st Hst)
        as (df & pre & r & post & Hdf & Hrows & Hpre & Hr & Hpv).
      destruct (point_values_Ok (drop 2 r)) as (st' & Hpv' & Hprobs & Hyears & _).
      assert (st' = st) as -> by congruence.
      exists code, info, df, pre, r, post. simpl.
      rewrite Hprobs, Hyears. repeat split; try done. apply take_seq.
    - eexists. split; [reflexivity|]. by intros t [=]. }
  rewrite bind_Ok. destruct (omap_id_Forall _ ots Hots) as [Hall Hle].
  eexists _, _. split; [reflexivity|]. split; [lia|done].
Qed.

Lemma comparison_plot_traces_witness :
  ∃ traces text,
    create_country_comparison_plot "Telemarketers"
      {[ "USA" := sample_table 91; "Mali" := overview_table ]} ["USA"; "Mali"]
    = Ok (traces, text) ∧
    length traces ≤ 2.
Proof.
  destruct (comparison_plot_traces "Telemarketers"
              {[ "USA" := sample_table 91; "Mali" := overview_table ]} ["USA"; "Mali"])
    as (traces & text & Hplot & Hlen & _).
  - intros c d Hc. apply lookup_insert_Some in Hc as [[<- <-]|[_ Hc]].
    + vm_compute. lia.
    + apply lookup_singleton_Some in Hc as [<- <-]. vm_compute. lia.
  - repeat constructor; apply (bool_decide_unpack _); vm_compute; reflexivity.
  - exists traces, text. split; [exact Hplot|exact Hlen].
Defined.

(** Only Mali holds the occupation: one trace, with Mali's flag and name. *)
Example comparison_plot_sample :
  (fig ← create_country_comparison_plot "Telemarketers"
           {[ "USA" := sample_table 91; "Mali" := overview_table ]} ["USA"; "Mali"];
   Ok ((λ t : country_trace,
          (country_trace_name t, length (country_trace_x t),
           length (country_trace_y t))) <$> (fig.1 : list country_trace)))
  = Ok [("🇲🇱 Mali", 91, 91)].
Proof. vm_compute. reflexivity. Qed.

(** The extractor on the dict of one country. *)
Lemma stats_entry_iff_source_singleton (title code : string) (df : DataFrame) :
  2 ≤ length (columns df) →
  ∃ stats,
    calculate_country_occupation_stats title {[ code := df ]} = Ok stats ∧
    country_occupation_stats title df = Ok (stats !! code).
Proof.
  intros Hcols.
  destruct (dict_for_Ok (λ _ d, country_occupation_stats title d) {[ code := df ]})
    as (stats & Hstats & _ & Hbody).
  { intros k d [<- <-]%lookup_singleton_Some. by apply country_occupation_stats_Ok. }
  exists stats. split; [exact Hstats|]. apply (Hbody code df), lookup_singleton_eq.
Qed.

(** ** The browse tab *)

(** A guarded read gives what [point_values] stored. *)
Lemma guarded_read_unique (probs : list cell) (i : nat) (v w : cell) :
  (i < length probs → probs !! i = Some v) → (length probs ≤ i → v = Num 0) →
  (i < length probs → probs !! i = Some w) → (length probs ≤ i → w = Num 0) →
  v = w.
Proof.
  intros Hv1 Hv0 Hw1 Hw0. destruct (decide (i < length probs)) as [Hlt|Hge].
  - specialize (Hv1 Hlt). specialize (Hw1 Hlt). congruence.
  - rewrite Hv0, Hw0 by lia. done.
Qed.

(** The card of a row and the analysis of its occupation agree: for the
    first row with a title, the card shows the 2024 and 2050 values that
    [calculate_country_occupation_stats] extracts for that title, and the
    label of that 2024 value. *)
Theorem browse_agrees_with_analysis (title code : string) (df : DataFrame)
    (pre post : list (list cell)) (r : list cell) :
  2 ≤ length (columns df) →
  rows df = pre ++ r :: post →
  Forall (λ r', ¬ has_title title r') pre →
  has_title title r →
  ∃ stats st soc,
    calculate_country_occupation_stats title {[ code := df ]} = Ok stats ∧
    stats !! code = Some st ∧
    r !! 0 = Some soc ∧
    browse_quick_stats r
    = (risk ← risk_level_browse (current_2024 st);
       Ok (soc, Str title, current_2024 st, midterm_2050 st, risk)).
Proof.
  intros Hcols Hrows Hpre Hr.
  destruct (stats_entry_iff_source_singleton title code df Hcols) as (stats & Hstats & Hbody).
  destruct (country_occupation_stats_found title df pre post r)
    as (st & Hst & Hpv); [done..|].
  rewrite Hst in Hbody. injection Hbody as Hcode.
  destruct (point_values_Ok (drop 2 r))
    as (st' & Hpv' & _ & _ & H7 & H7' & _ & _ & H33 & H33' & _).
  assert (st' = st) as -> by congruence.
  destruct (lookup_lt_is_Some_2 r 0) as [soc Hsoc].
  { apply lookup_lt_Some in Hr. lia. }
  exists stats, st, soc. split; [exact Hstats|]. split; [done|]. split; [done|].
  unfold browse_quick_stats.
  pose proof (getitem_lookup r 1 (Str title) Hr) as E1.
  pose proof (getitem_lookup r 0 soc Hsoc) as E0.
  change (Z.of_nat 1) with 1%Z in E1. change (Z.of_nat 0) with 0%Z in E0.
  rewrite E1, bind_Ok, E0, bind_Ok.
  destruct (guarded_read (drop 2 r) 7) as (v7 & E7 & G7 & G7').
  destruct (guarded_read (drop 2 r) 33) as (v33 & E33 & G33 & G33').
  change (Z.of_nat 7) with 7%Z in E7. change (Z.of_nat 33) with 33%Z in E33.
  rewrite E7, bind_Ok, E33, bind_Ok.
  by rewrite (guarded_read_unique (drop 2 r) 7 v7 (current_2024 st)),
             (guarded_read_unique (drop 2 r) 33 v33 (midterm_2050 st)).
Qed.

Lemma browse_agrees_with_analysis_witness :
  ∃ stats st soc,
    calculate_country_occupation_stats "Telemarketers" {[ "USA" := overview_table ]}
    = Ok stats ∧
    stats !! "USA" = Some st ∧
    sample_row "41-9041" "Telemarketers" 30 91 !! 0 = Some soc ∧
    browse_quick_stats (sample_row "41-9041" "Telemarketers" 30 91)
    = (risk ← risk_level_browse (current_2024 st);
       Ok (soc, Str "Telemarketers", current_2024 st, midterm_2050 st, risk)).
Proof.
  apply (browse_agrees_with_analysis "Telemarketers" "USA" overview_table
           [ sample_row "11-1011" "Chief Executives" 0 91;
             sample_row "15-1252" "Software Developer" 3 91 ] []
           (sample_row "41-9041" "Telemarketers" 30 91)).
  - vm_compute. lia.
  - reflexivity.
  - repeat constructor; unfold has_title; simpl; congruence.
  - reflexivity.
Defined.

(** The card of the sample row: 0.37 in 2024, 0.63 in 2050, medium risk. *)
Example browse_quick_stats_sample :
  browse_quick_stats (sample_row "41-9041" "Telemarketers" 30 91)
  = Ok (Str "41-9041", Str "Telemarketers", Num (37 # 100), Num (63 # 100),
        "🟡 Medium Risk").
Proof. vm_compute. reflexivity. Qed.

(** A row without its two identifier cells has no card. *)
Example browse_quick_stats_short_row :
  browse_quick_stats [Str "41-9041"] = Raise IndexError.
Proof. reflexivity. Qed.

(** ** The occupation filter of the multi-occupation tab *)

(** What the comprehension keeps when every title is a text. *)
Lemma filter_titles_text (search : string) (available : list cell) :
  Forall is_text available →
  ∃ kept, filter_titles search available = Some kept ∧
    ∀ c, c ∈ kept ↔
         c ∈ available ∧ ∃ s, c = Str s ∧ contains (lower search) (lower s) = true.
Proof.
  induction 1 as [|c cs [s ->] Hcs (kept & IHk & IHin)].
  - exists []. split; [done|]. intros c. split; [by intros ?%elem_of_nil|].
    by intros [?%elem_of_nil _].
  - cbn [filter_titles]. rewrite IHk. simpl.
    destruct (contains (lower search) (lower s)) eqn:Hs; eexists; (split; [reflexivity|]);
      intros c; rewrite ?elem_of_cons, IHin.
    + split.
      * intros [->|[Hc Hm]]; [split; [by left|by exists s]|split; [by right|done]].
      * intros [[->|Hc] Hm]; [by left|by right].
    + split.
      * intros [Hc Hm]. split; [by right|done].
      * intros [[->|Hc] Hm]; [|done]. destruct Hm as (s' & [= <-] & Hm). congruence.
Qed.

(** The filter fails exactly when a term is typed and some title cell is
    not a text (a missing title, a number), where [occ.lower()] raises. *)
Theorem filtered_multi_fails_iff (search_multi : string) (available : list cell) :
  filtered_multi search_multi available = None ↔
  search_multi ≠ "" ∧ ∃ c, c ∈ available ∧ ¬ is_text c.
Proof.
  unfold filtered_multi. case_bool_decide as Hs.
  - split; [done|]. by intros [? _].
  - split.
    + intros Hnone. split; [done|]. induction available as [|c cs IH]; [done|].
      destruct c as [q| |s].
      * exists (Num q). split; [by left|]. by intros [? [=]].
      * exists NaN. split; [by left|]. by intros [? [=]].
      * cbn [filter_titles] in Hnone.
        destruct (filter_titles search_multi cs) as [kept|]; [done|].
        destruct IH as (c & Hc & Hnt); [done|]. exists c. split; [by right|done].
    + intros [_ (c & Hc & Hnt)]. induction available as [|c' cs IH].
      * by apply elem_of_nil in Hc.
      * destruct c' as [q| |s]; [done..|]. cbn [filter_titles].
        apply elem_of_cons in Hc as [->|Hc].
        -- destruct Hnt. by exists s.
        -- by rewrite IH.
Qed.

(** A missing title: the filter fails, the search of the browse tab does
    not. *)
Example filtered_multi_missing_title (float_repr : Q → string) :
  filtered_multi "chief" [Str "Chief Executives"; NaN] = None ∧
  ∃ found, search_occupations float_repr re_compile_plain
             {| columns := sample_columns 0;
                rows := [[Str "11-1011"; Str "Chief Executives"]; [Str "15-1252"; NaN]] |}
             "chief" = Ok found.
Proof. split; [reflexivity|]. eexists. vm_compute. reflexivity. Qed.

(** For a term of ordinary characters and a table whose titles are all
    texts, the filter keeps exactly the titles in which the term occurs,
    case apart, and each of them is the title of a row that the search of
    the browse tab returns for the same term. *)
Theorem filtered_multi_within_search (float_repr : Q → string)
    (re_compile : string → result (string → bool))
    (df : DataFrame) (term : string) :
  literal_search re_compile →
  literal_pattern term = true →
  term ≠ "" →
  2 ≤ length (columns df) →
  Forall is_text (column df 1) →
  ∃ kept found,
    filtered_multi term (column df 1) = Some kept ∧
    search_occupations float_repr re_compile df term = Ok found ∧
    (∀ c, c ∈ kept ↔
          c ∈ column df 1 ∧ ∃ s, c = Str s ∧ contains (lower term) (lower s) = true) ∧
    ∀ c, c ∈ kept → ∃ r, r ∈ rows found ∧ default NaN (r !! 1) = c.
Proof.
  intros Hre Hterm Hne Hcols Htext.
  destruct (filter_titles_text term (column df 1) Htext) as (kept & Hkept & Hin).
  destruct (Hre (lower term) (lower_literal term Hterm)) as (test & Htest & Hcontains).
  exists kept. eexists. split.
  { unfold filtered_multi. by rewrite bool_decide_eq_false_2. }
  split; [by apply (search_with_test _ _ _ _ test)|]. split; [exact Hin|].
  intros c [Hc (s & -> & Hs)]%Hin. simpl.
  apply list_elem_of_fmap in Hc as (r & Hr & Hrin). exists r. split; [|done].
  rewrite list_elem_of_In, filter_In, <- list_elem_of_In. split; [done|].
  rewrite <- Hr. simpl. rewrite !Hcontains, Hs. apply orb_true_r.
Qed.

Lemma filtered_multi_within_search_witness :
  ∃ kept found,
    filtered_multi "EXEC" (column (sample_table 3) 1) = Some kept ∧
    search_occupations (λ _, "") re_compile_plain (sample_table 3) "EXEC" = Ok found ∧
    (∀ c, c ∈ kept ↔
          c ∈ column (sample_table 3) 1 ∧
          ∃ s, c = Str s ∧ contains (lower "EXEC") (lower s) = true) ∧
    ∀ c, c ∈ kept → ∃ r, r ∈ rows found ∧ default NaN (r !! 1) = c.
Proof.
  apply (filtered_multi_within_search (λ _, "") re_compile_plain (sample_table 3) "EXEC").
  - exact re_compile_plain_literal.
  - reflexivity.
  - discriminate.
  - vm_compute. lia.
  - repeat constructor; by eexists.
Defined.

(** ** The order of the risk tiers *)

(** The tier of a number, by its two comparisons. *)
Lemma risk_level_compare_tier (q : Q) :
  ∃ t, risk_level_compare (Num q) = Ok (tier_label t) ∧
       (2 ≤ tier_rank t ↔ (1 # 2 < q)%Q) ∧ (1 ≤ tier_rank t ↔ (1 # 5 < q)%Q).
Proof.
  unfold risk_level_compare.
  destruct (Qlt_le_dec (1 # 2) q) as [Hhi|Hhi].
  - exists High. rewrite (cell_gt_true q (1 # 2) Hhi), bind_Ok. split; [done|].
    simpl. split; [done|]. split; [|intros; lia]. intros _.
    apply Qlt_trans with (1 # 2)%Q; [reflexivity|done].
  - rewrite (cell_gt_false q (1 # 2) Hhi), bind_Ok.
    destruct (Qlt_le_dec (1 # 5) q) as [Hmed|Hmed].
    + exists Medium. rewrite (cell_gt_true q (1 # 5) Hmed), bind_Ok.
      split; [done|]. simpl. split; [|done]. split; [intros; lia|].
      by intros ?%Qlt_not_le.
    + exists Low. rewrite (cell_gt_false q (1 # 5) Hmed), bind_Ok.
      split; [done|]. simpl. split; (split; [intros; lia|]); by intros ?%Qlt_not_le.
Qed.

(** The label never goes down when the probability goes up. *)
Theorem risk_tier_monotone (q1 q2 : Q) :
  (q1 <= q2)%Q →
  ∃ t1 t2,
    risk_level_compare (Num q1) = Ok (tier_label t1) ∧
    risk_level_compare (Num q2) = Ok (tier_label t2) ∧
    tier_rank t1 ≤ tier_rank t2.
Proof.
  intros Hle.
  destruct (risk_level_compare_tier q1) as (t1 & Ht1 & H12 & H11).
  destruct (risk_level_compare_tier q2) as (t2 & Ht2 & H22 & H21).
  exists t1, t2. split; [done|]. split; [done|].
  assert (tier_rank t1 ≤ 2) as Hmax by (destruct t1; simpl; lia).
  destruct (decide (2 ≤ tier_rank t1)) as [Hr2|Hr2].
  - apply H12 in Hr2. assert (2 ≤ tier_rank t2); [|lia].
    apply H22. by apply Qlt_le_trans with q1.
  - destruct (decide (1 ≤ tier_rank t1)) as [Hr1|Hr1]; [|lia].
    apply H11 in Hr1. assert (1 ≤ tier_rank t2); [|lia].
    apply H21. by apply Qlt_le_trans with q1.
Qed.

Lemma risk_tier_monotone_witness :
  ∃ t1 t2,
    risk_level_compare (Num (10 # 100)) = Ok (tier_label t1) ∧
    risk_level_compare (Num (55 # 100)) = Ok (tier_label t2) ∧
    tier_rank t1 ≤ tier_rank t2.
Proof.
  apply (risk_tier_monotone (10 # 100) (55 # 100)). by unfold Qle.
Defined.
